(** * EditListingDetailsForm: a shallow embedding of the details step of the
      listing wizard and the properties of its helper components.

    The embedded source is
    [src/containers/EditListingPage/EditListingWizard/EditListingDetailsPanel/EditListingDetailsForm.js].

    Layout of the development:
    - [JS]: the JavaScript values the component inspects (truthiness, [||],
      [== null], strict equality, [Array.prototype.includes], [find]);
    - [VDom]: the element tree a render produces;
    - [FormState]: the form-state object ([formApi]) and the small state and
      exception monad in which the change handler runs;
    - [Details]: the components of the file, in the order of the source;
    - the theorems. *)

From Stdlib Require Import ZArith Bool List.
From stdpp Require Import base option list strings gmap.

Local Open Scope string_scope.
Local Open Scope list_scope.

Set Warnings "-register-all".

(* ===================================================================== *)
(** ** JavaScript values                                                  *)
(* ===================================================================== *)

Module JS.

(** The values that reach the component through its props: primitives and
    references to objects (an error object, a function).  Objects are compared
    by identity, so a reference is all that a comparison or a truthiness test
    can see of them.  Numbers are the integer-valued ones. *)
Inductive jsval : Type :=
| VUndefined
| VNull
| VBool (b : bool)
| VNum (n : Z)
| VStr (s : string)
| VRef (r : positive).

#[global] Instance jsval_eq_dec : EqDecision jsval.
Proof. solve_decision. Defined.

(** ToBoolean. *)
Definition truthy (v : jsval) : bool :=
  match v with
  | VUndefined | VNull => false
  | VBool b => b
  | VNum n => negb (n =? 0)%Z
  | VStr s => negb (String.eqb s "")
  | VRef _ => true
  end.

(** [a === b]. *)
Definition strict_eq (a b : jsval) : bool := bool_decide (a = b).

(** [a !== b]. *)
Definition strict_neq (a b : jsval) : bool := negb (strict_eq a b).

(** [arr.includes(x)]: membership under SameValueZero, which on these values
    is the same comparison as [===]. *)
Definition includes (arr : list jsval) (x : jsval) : bool :=
  existsb (fun y => strict_eq y x) arr.

(** [arr.find(p)]: the first element satisfying [p], or [undefined]
    (here [None]). *)
Fixpoint find {A : Type} (p : A -> bool) (arr : list A) : option A :=
  match arr with
  | [] => None
  | x :: rest => if p x then Some x else find p rest
  end.

(** A prop that holds an object or an array of a known shape, or is
    [undefined] or [null]. *)
Inductive nullable (A : Type) : Type :=
| Undefined
| Null
| Def (a : A).

Arguments Undefined {A}.
Arguments Null {A}.
Arguments Def {A} a.

(** [x == null]. *)
Definition is_nullish {A : Type} (x : nullable A) : bool :=
  match x with
  | Def _ => false
  | _ => true
  end.

(** [x || d] for an object or array [x]: both are truthy when present. *)
Definition or_else {A : Type} (x : nullable A) (d : A) : A :=
  match x with
  | Def a => a
  | _ => d
  end.

(** [x?.length > 1]: [undefined > 1] is false. *)
Definition length_gt_1 {A : Type} (x : nullable (list A)) : bool :=
  match x with
  | Def l => (1 <? length l)%nat
  | _ => false
  end.

End JS.

Export JS.

(* ===================================================================== *)
(** ** Configuration records passed in as props                           *)
(* ===================================================================== *)

(** An entry of [listingExtendedDataConfig], reduced to the four properties
    the component destructures.  A missing property reads as [undefined]. *)
Record ExtendedDataConfig : Type := {
  key : jsval;
  includeForListingTypes : nullable (list jsval);
  schemaType : jsval;
  scope : jsval
}.

(** The object [{}]: every property reads as [undefined]. *)
Definition empty_object : ExtendedDataConfig :=
  {| key := VUndefined;
     includeForListingTypes := Undefined;
     schemaType := VUndefined;
     scope := VUndefined |}.

(** An entry of [selectableListingTypes]. *)
Record ListingTypeConfig : Type := {
  listingType : jsval;
  label : jsval;
  transactionProcessAlias : jsval;
  unitType : jsval
}.

(** The [fetchErrors] prop: three error slots. *)
Record FetchErrors : Type := {
  updateListingError : jsval;
  createListingDraftError : jsval;
  showListingsError : jsval
}.

Definition no_errors : FetchErrors :=
  {| updateListingError := VUndefined;
     createListingDraftError := VUndefined;
     showListingsError := VUndefined |}.

(** The [intl] prop, of which only [formatMessage] is used: a message
    descriptor id and the interpolated values give the message. *)
Record Intl : Type := {
  formatMessage : string -> list (string * jsval) -> string
}.

(** A function handed in from outside (a callback prop, the form library's
    [handleSubmit]), known by its identity only. *)
Inductive extfn : Type := ExtFn (id : positive).

#[global] Instance extfn_eq_dec : EqDecision extfn.
Proof. solve_decision. Defined.

(* ===================================================================== *)
(** ** Element trees                                                      *)
(* ===================================================================== *)

Module VDom.

(** Calls of the validator builders imported from [util/validators], kept as
    terms: any implementation of the three builders interprets them. *)
Inductive validator : Type :=
| required (message : string)
| maxLength (message : string) (maximumLength : Z)
| composeValidators (validators : list validator).

(** The closure [handleOnChange] with what it captures from the props of
    [FieldSelectListingType]. *)
Record OnChangeClosure : Type := {
  closure_listingTypes : nullable (list ListingTypeConfig);
  closure_onProcessChange : nullable extfn
}.

(** What a JSX attribute can hold in this file. *)
Inductive prop : Type :=
| PVal (v : jsval)
| PValidate (v : validator)
| PFn (f : extfn)
| POnChange (h : OnChangeClosure)
| PFieldConfig (c : nullable ExtendedDataConfig)
| PObject (fields : list (string * jsval))
| PRenderFn.

(** Element types: host tags and the imported components.  The components
    defined in this file are expanded where they are used. *)
Inductive elem_type : Type :=
| Tag (name : string)
| FinalForm
| Form
| Field
| FieldSelect
| FieldTextInput
| Heading
| Button
| FormattedMessage
| CustomExtendedDataField.

#[global] Instance elem_type_eq_dec : EqDecision elem_type.
Proof. solve_decision. Defined.

(** The function child of [Field] in [FieldHidden]:
    [fieldRenderProps => <input {...fieldRenderProps?.input} />]. *)
Inductive child_fn : Type := InputOfFieldRenderProps.

Inductive node : Type :=
| NullNode
| Text (v : jsval)
| Element (type : elem_type) (props : list (string * prop)) (children : list node)
| Fragment (children : list node)
| FnChild (f : child_fn).

(** Reading a prop of an element; a later attribute of the same name would
    win in JSX, and no element of this file repeats a name. *)
Fixpoint get_prop (name : string) (props : list (string * prop)) : option prop :=
  match props with
  | [] => None
  | (n, p) :: rest => if String.eqb n name then Some p else get_prop name rest
  end.

(** [{...props} name={p}]: the attribute replaces a spread property of the
    same name, or is added. *)
Fixpoint set_prop (name : string) (p : prop) (props : list (string * prop))
  : list (string * prop) :=
  match props with
  | [] => [(name, p)]
  | (n, q) :: rest =>
      if String.eqb n name then (n, p) :: rest else (n, q) :: set_prop name p rest
  end.

(** The elements of a tree, in document order (an element before its
    descendants). *)
Fixpoint subtrees (n : node) : list node :=
  match n with
  | Element t ps cs => Element t ps cs :: flat_map subtrees cs
  | Fragment cs => flat_map subtrees cs
  | _ => []
  end.

Definition node_type (n : node) : option elem_type :=
  match n with
  | Element t _ _ => Some t
  | _ => None
  end.

Definition node_props (n : node) : list (string * prop) :=
  match n with
  | Element _ ps _ => ps
  | _ => []
  end.

Definition node_children (n : node) : list node :=
  match n with
  | Element _ _ cs => cs
  | Fragment cs => cs
  | _ => []
  end.

Definition has_type (t : elem_type) (n : node) : bool :=
  bool_decide (node_type n = Some t).

(** The elements of a given type in a tree. *)
Definition elements_of (t : elem_type) (n : node) : list node :=
  List.filter (has_type t) (subtrees n).

(** Whether an element carries a prop of the given name. *)
Definition has_prop (name : string) (n : node) : bool :=
  match get_prop name (node_props n) with
  | Some _ => true
  | None => false
  end.

(** Whether an element carries a function handed in from outside. *)
Definition is_fn (p : string * prop) : bool :=
  match snd p with
  | PFn _ => true
  | _ => false
  end.

Definition fn_props (n : node) : list (string * prop) :=
  List.filter is_fn (node_props n).

End VDom.

Export VDom.

(* ===================================================================== *)
(** ** The form-state object and the effects of a handler                 *)
(* ===================================================================== *)

Module FormState.

(** What a handler of this file can touch: the field values held by the
    form-state object [formApi], and the callbacks it has invoked so far, each
    with its argument list, oldest first. *)
Record World : Type := {
  formValues : gmap string jsval;
  calls : list (extfn * list jsval)
}.

(** Reading a property of [undefined] or [null] throws a TypeError. *)
Inductive exn : Type :=
| CannotRead (base : jsval) (property : string).

Inductive outcome (A : Type) : Type :=
| Returned (a : A)
| Thrown (e : exn).

Arguments Returned {A} a.
Arguments Thrown {A} e.

(** A computation runs in a world and leaves a world, whether it returns or
    throws. *)
Definition M (A : Type) : Type := World -> outcome A * World.

#[global] Instance M_ret : MRet M :=
  fun A a w => (Returned a, w).

#[global] Instance M_bind : MBind M :=
  fun A B k m w =>
    match m w with
    | (Returned a, w') => k a w'
    | (Thrown e, w') => (Thrown e, w')
    end.

Definition throw {A : Type} (e : exn) : M A :=
  fun w => (Thrown e, w).

(** [formApi.getFieldState(name)?.value]: the value of the field, or
    [undefined] when the form has no state for it. *)
Definition field_value (fields : gmap string jsval) (name : string) : jsval :=
  default VUndefined (fields !! name).

Definition getFieldStateValue (name : string) : M jsval :=
  fun w => (Returned (field_value (formValues w) name), w).

(** [formApi.change(name, value)]. *)
Definition change (name : string) (v : jsval) : M unit :=
  fun w => (Returned tt,
            {| formValues := <[name := v]> (formValues w); calls := calls w |}).

(** Calling a callback prop that returns: the call is recorded.  A callback
    that may throw is called with [call_with], further down. *)
Definition call (f : extfn) (args : list jsval) : M unit :=
  fun w => (Returned tt,
            {| formValues := formValues w; calls := calls w ++ [(f, args)] |}).

(** [arr.find] on a prop that may be missing. *)
Definition find_in {A : Type} (arr : nullable (list A)) (p : A -> bool)
  : M (option A) :=
  match arr with
  | Def l => mret (find p l)
  | Undefined => throw (CannotRead VUndefined "find")
  | Null => throw (CannotRead VNull "find")
  end.

End FormState.

Export FormState.

(* ===================================================================== *)
(** ** The components of the file                                         *)
(* ===================================================================== *)

(** [const TITLE_MAX_LENGTH = 60;] *)
Definition TITLE_MAX_LENGTH : Z := 60.

(** Props the form library hands to the render function: the props of the
    component merged with the form state.  [form] is the state [formApi]
    reads at render time. *)
Record FormRenderProps : Type := {
  autoFocus : jsval;
  className : jsval;
  disabled : bool;
  ready : bool;
  form : gmap string jsval;
  handleSubmit : extfn;
  onProcessChange : nullable extfn;
  intl : Intl;
  invalid : bool;
  pristine : bool;
  selectableListingTypes : nullable (list ListingTypeConfig);
  hasExistingListingType : bool;
  saveActionMsg : string;
  updated : bool;
  updateInProgress : bool;
  fetchErrors : nullable FetchErrors;
  listingExtendedDataConfig : nullable (list (nullable ExtendedDataConfig));
  values : gmap string jsval
}.

(* ===================================================================== *)
(** ** Sample props, for the examples that close the development          *)
(* ===================================================================== *)

Module Samples.

Definition css (name : string) : jsval := VStr name.

Definition classNames (classes : list jsval) : jsval :=
  match classes with
  | c :: _ => c
  | [] => VStr ""
  end.

Definition EXTENDED_DATA_SCHEMA_TYPES : list string :=
  ["enum"; "multi-enum"; "text"; "long"; "boolean"].

Definition intl : Intl := {| formatMessage := fun id _ => id |}.

Definition daily : ListingTypeConfig :=
  {| listingType := VStr "daily-booking";
     label := VStr "Daily booking";
     transactionProcessAlias := VStr "default-booking/release-1";
     unitType := VStr "day" |}.

Definition nightly : ListingTypeConfig :=
  {| listingType := VStr "nightly-booking";
     label := VStr "Nightly booking";
     transactionProcessAlias := VStr "default-booking/release-1";
     unitType := VStr "night" |}.

Definition selling : ListingTypeConfig :=
  {| listingType := VStr "product-selling";
     label := VStr "Sell products";
     transactionProcessAlias := VStr "default-purchase/release-1";
     unitType := VStr "item" |}.

Definition listingTypes : list ListingTypeConfig := [daily; nightly; selling].

Definition onProcessChange : extfn := ExtFn 1.

(** A form in which a daily booking is being edited. *)
Definition world : World :=
  {| formValues :=
       <["title" := VStr "Sauna"]>
         (<["description" := VStr "By the lake"]>
            (<["listingType" := VStr "daily-booking"]>
               (<["transactionProcessAlias" := VStr "default-booking/release-1"]>
                  (<["unitType" := VStr "day"]> ∅))));
     calls := [] |}.

Definition category : ExtendedDataConfig :=
  {| key := VStr "category";
     includeForListingTypes := Def [VStr "daily-booking"; VStr "nightly-booking"];
     schemaType := VStr "enum";
     scope := VStr "public" |}.

Definition internal_note : ExtendedDataConfig :=
  {| key := VStr "note";
     includeForListingTypes := Undefined;
     schemaType := VStr "text";
     scope := VStr "private" |}.

Definition rating : ExtendedDataConfig :=
  {| key := VStr "rating";
     includeForListingTypes := Null;
     schemaType := VStr "long";
     scope := VStr "metadata" |}.

Definition shipping : ExtendedDataConfig :=
  {| key := VStr "shipping";
     includeForListingTypes := Def [VStr "product-selling"];
     schemaType := VStr "boolean";
     scope := VStr "public" |}.

Definition location : ExtendedDataConfig :=
  {| key := VStr "location";
     includeForListingTypes := Undefined;
     schemaType := VStr "geo";
     scope := VStr "public" |}.

Definition extendedData : list (nullable ExtendedDataConfig) :=
  [Def rating; Def category; Null; Def shipping; Def location;
   Undefined; Def internal_note].

End Samples.

(** Sample props for the submit path. *)
Module SubmitSamples.

Definition submit_handler : extfn := ExtFn 2.

Definition library_handleSubmit : extfn := ExtFn 3.

Definition component_props : list (string * prop) :=
  [("onSubmit", PFn submit_handler);
   ("saveActionMsg", PVal (VStr "Next"));
   ("render", PVal VNull)].

Definition render_props : FormRenderProps :=
  {| autoFocus := VBool true;
     className := VNull;
     disabled := false;
     ready := false;
     form := formValues Samples.world;
     handleSubmit := library_handleSubmit;
     onProcessChange := Def Samples.onProcessChange;
     intl := Samples.intl;
     invalid := false;
     pristine := false;
     selectableListingTypes := Def Samples.listingTypes;
     hasExistingListingType := false;
     saveActionMsg := "Next";
     updated := false;
     updateInProgress := false;
     fetchErrors := Null;
     listingExtendedDataConfig := Def Samples.extendedData;
     values := formValues Samples.world |}.

End SubmitSamples.

Section Details.

(** What the file imports and the sources do not include, taken as
    parameters: the class names of the CSS module, the [classnames] helper,
    the list [EXTENDED_DATA_SCHEMA_TYPES] of schema-type names from
    [util/types], and the mutators of [final-form-arrays]. *)
Variable css : string -> jsval.
Variable classNames : list jsval -> jsval.
Variable EXTENDED_DATA_SCHEMA_TYPES : list string.
Variable arrayMutators : list (string * jsval).

(** [<FormattedMessage id="..." />] *)
Definition formatted_message (id : string) : node :=
  Element FormattedMessage [("id", PVal (VStr id))] [].

(** An element is truthy, [null] is not. *)
Definition node_truthy (n : node) : bool :=
  match n with
  | NullNode => false
  | Text v => truthy v
  | _ => true
  end.

(** [ErrorMessage]: show various error messages. *)
Definition ErrorMessage (fetchErrors : nullable FetchErrors) : node :=
  let errors := or_else fetchErrors no_errors in
  let errorMessage :=
    if truthy (updateListingError errors) then
      formatted_message "EditListingDetailsForm.updateFailed"
    else if truthy (createListingDraftError errors) then
      formatted_message "EditListingDetailsForm.createListingDraftError"
    else if truthy (showListingsError errors) then
      formatted_message "EditListingDetailsForm.showListingFailed"
    else NullNode in
  if node_truthy errorMessage then
    Element (Tag "p") [("className", PVal (css "error"))] [errorMessage]
  else NullNode.

(** [FieldHidden]: hidden input field. *)
Definition FieldHidden (name : string) : node :=
  Element Field
    [("id", PVal (VStr name));
     ("name", PVal (VStr name));
     ("type", PVal (VStr "hidden"));
     ("className", PVal (css "unitTypeHidden"))]
    [FnChild InputOfFieldRenderProps].

(** [handleOnChange], the closure inside [FieldSelectListingType]; [formApi]
    is the world it runs in. *)
Definition handleOnChange
    (listingTypes : nullable (list ListingTypeConfig))
    (onProcessChange : nullable extfn)
    (value : jsval) : M unit :=
  storedAlias ← getFieldStateValue "transactionProcessAlias";
  found ← find_in listingTypes (fun config => strict_eq (listingType config) value);
  match found with
  | None => throw (CannotRead VUndefined "transactionProcessAlias")
  | Some selectedListingType =>
      change "transactionProcessAlias" (transactionProcessAlias selectedListingType);;
      change "unitType" (unitType selectedListingType);;
      let hasProcessChanged :=
        strict_neq storedAlias (transactionProcessAlias selectedListingType) in
      match onProcessChange with
      | Def callback =>
          if hasProcessChanged
          then call callback [transactionProcessAlias selectedListingType]
          else mret tt
      | _ => mret tt
      end
  end.

(** Running the closure stored in an [onChange] prop. *)
Definition run_onChange (h : OnChangeClosure) (value : jsval) : M unit :=
  handleOnChange (closure_listingTypes h) (closure_onProcessChange h) value.

(** One [<option>] of the select. *)
Definition listing_type_option (config : ListingTypeConfig) : node :=
  let type := listingType config in
  Element (Tag "option") [("key", PVal type); ("value", PVal type)]
    [Text (label config)].

(** [FieldSelectListingType]: either allows selecting the listing type (if
    multiple types are available) or just renders hidden fields. *)
Definition FieldSelectListingType
    (name : string)
    (listingTypes : nullable (list ListingTypeConfig))
    (hasExistingListingType : bool)
    (onProcessChange : nullable extfn)
    (formApi : gmap string jsval)
    (intl : Intl) : node :=
  let hasMultipleListingTypes := length_gt_1 listingTypes in
  if hasMultipleListingTypes && negb hasExistingListingType then
    Fragment
      [Element FieldSelect
         [("id", PVal (VStr name));
          ("name", PVal (VStr name));
          ("className", PVal (css "listingTypeSelect"));
          ("label", PVal (VStr (formatMessage intl
                       "EditListingDetailsForm.listingTypeLabel" [])));
          ("validate", PValidate (required (formatMessage intl
                       "EditListingDetailsForm.listingTypeRequired" [])));
          ("onChange", POnChange
             {| closure_listingTypes := listingTypes;
                closure_onProcessChange := onProcessChange |})]
         (Element (Tag "option")
            [("disabled", PVal (VBool true)); ("value", PVal (VStr ""))]
            [Text (VStr (formatMessage intl
                     "EditListingDetailsForm.listingTypePlaceholder" []))]
          (* here [listingTypes] is an array, its length being above 1 *)
          :: map listing_type_option (or_else listingTypes []));
       FieldHidden "transactionProcessAlias";
       FieldHidden "unitType"]
  else if hasMultipleListingTypes && hasExistingListingType then
    Element (Tag "div") [("className", PVal (css "listingTypeSelect"))]
      [Element Heading
         [("as", PVal (VStr "h5")); ("rootClassName", PVal (css "selectedLabel"))]
         [Text (VStr (formatMessage intl
                  "EditListingDetailsForm.listingTypeLabel" []))];
       Element (Tag "p") [("className", PVal (css "selectedValue"))]
         [Text (field_value formApi name)];
       FieldHidden name;
       FieldHidden "transactionProcessAlias";
       FieldHidden "unitType"]
  else
    Fragment
      [FieldHidden name;
       FieldHidden "transactionProcessAlias";
       FieldHidden "unitType"].

(** The three tests of the reducer in [AddCustomExtendedDataFields]. *)
Definition isKnownSchemaType (c : ExtendedDataConfig) : bool :=
  includes (map VStr EXTENDED_DATA_SCHEMA_TYPES) (schemaType c).

Definition isTargetProcessAlias (listingType : jsval) (c : ExtendedDataConfig) : bool :=
  match includeForListingTypes c with
  | Def arr => includes arr listingType
  | _ => true
  end.

Definition isProviderScope (c : ExtendedDataConfig) : bool :=
  includes [VStr "public"; VStr "private"] (scope c).

(** The element pushed for a picked entry. *)
Definition custom_field (intl : Intl) (extendedDataConfig : nullable ExtendedDataConfig)
  : node :=
  let c := or_else extendedDataConfig empty_object in
  Element CustomExtendedDataField
    [("key", PVal (key c));
     ("name", PVal (key c));
     ("fieldConfig", PFieldConfig extendedDataConfig);
     ("defaultRequiredMessage", PVal (VStr (formatMessage intl
        "EditListingDetailsForm.defaultRequiredMessage" [])))]
    [].

(** The reducer: [(pickedFields, extendedDataConfig) => ...]. *)
Definition pick_field (listingType : jsval) (intl : Intl)
    (pickedFields : list node) (extendedDataConfig : nullable ExtendedDataConfig)
  : list node :=
  let c := or_else extendedDataConfig empty_object in
  if isKnownSchemaType c && isTargetProcessAlias listingType c && isProviderScope c
  then pickedFields ++ [custom_field intl extendedDataConfig]
  else pickedFields.

(** The [fields] array of [AddCustomExtendedDataFields]. *)
Definition custom_fields (listingType : jsval)
    (listingExtendedDataConfig : nullable (list (nullable ExtendedDataConfig)))
    (intl : Intl) : list node :=
  let extendedDataConfigs := or_else listingExtendedDataConfig [] in
  fold_left (pick_field listingType intl) extendedDataConfigs [].

(** [AddCustomExtendedDataFields]: collect data for extended data fields
    (both publicData and privateData) based on configuration. *)
Definition AddCustomExtendedDataFields (listingType : jsval)
    (listingExtendedDataConfig : nullable (list (nullable ExtendedDataConfig)))
    (intl : Intl) : node :=
  Fragment (custom_fields listingType listingExtendedDataConfig intl).

(** The render function given to [FinalForm]. *)
Definition render (formRenderProps : FormRenderProps) : node :=
  let rp := formRenderProps in
  let listingType := default VUndefined (values rp !! "listingType") in
  let titleRequiredMessage :=
    formatMessage (intl rp) "EditListingDetailsForm.titleRequired" [] in
  let maxLengthMessage :=
    formatMessage (intl rp) "EditListingDetailsForm.maxLength"
      [("maxLength", VNum TITLE_MAX_LENGTH)] in
  let maxLength60Message := maxLength maxLengthMessage TITLE_MAX_LENGTH in
  let classes := classNames [css "root"; className rp] in
  let submitReady := (updated rp && pristine rp) || ready rp in
  let submitInProgress := updateInProgress rp in
  let submitDisabled := invalid rp || disabled rp || submitInProgress in
  Element Form
    [("className", PVal classes); ("onSubmit", PFn (handleSubmit rp))]
    [ErrorMessage (fetchErrors rp);
     Element FieldTextInput
       [("id", PVal (VStr "title"));
        ("name", PVal (VStr "title"));
        ("className", PVal (css "title"));
        ("type", PVal (VStr "text"));
        ("label", PVal (VStr (formatMessage (intl rp)
                     "EditListingDetailsForm.title" [])));
        ("placeholder", PVal (VStr (formatMessage (intl rp)
                     "EditListingDetailsForm.titlePlaceholder" [])));
        ("maxLength", PVal (VNum TITLE_MAX_LENGTH));
        ("validate", PValidate
           (composeValidators [required titleRequiredMessage; maxLength60Message]));
        ("autoFocus", PVal (autoFocus rp))]
       [];
     Element FieldTextInput
       [("id", PVal (VStr "description"));
        ("name", PVal (VStr "description"));
        ("className", PVal (css "description"));
        ("type", PVal (VStr "textarea"));
        ("label", PVal (VStr (formatMessage (intl rp)
                     "EditListingDetailsForm.description" [])));
        ("placeholder", PVal (VStr (formatMessage (intl rp)
                     "EditListingDetailsForm.descriptionPlaceholder" [])));
        ("validate", PValidate (required (formatMessage (intl rp)
                     "EditListingDetailsForm.descriptionRequired" [])))]
       [];
     FieldSelectListingType "listingType"
       (selectableListingTypes rp) (hasExistingListingType rp)
       (onProcessChange rp) (form rp) (intl rp);
     AddCustomExtendedDataFields listingType (listingExtendedDataConfig rp) (intl rp);
     Element Button
       [("className", PVal (css "submitButton"));
        ("type", PVal (VStr "submit"));
        ("inProgress", PVal (VBool submitInProgress));
        ("disabled", PVal (VBool submitDisabled));
        ("ready", PVal (VBool submitReady))]
       [Text (VStr (saveActionMsg rp))]].

(** [EditListingDetailsFormComponent]: the props are spread onto [FinalForm],
    then [mutators] and [render] are set.  [PRenderFn] stands for [render]. *)
Definition EditListingDetailsFormComponent (props : list (string * prop)) : node :=
  Element FinalForm
    (set_prop "render" PRenderFn
       (set_prop "mutators" (PObject arrayMutators) props))
    [].

(* --------------------------------------------------------------------- *)
(** *** The notions the statements are written with                       *)
(* --------------------------------------------------------------------- *)

(** The test of the reducer as one boolean. *)
Definition picked (listingType : jsval) (entry : nullable ExtendedDataConfig) : bool :=
  let c := or_else entry empty_object in
  isKnownSchemaType c && isTargetProcessAlias listingType c && isProviderScope c.

(** An entry that gets a custom field, as the specification words it: the
    entry is a configuration whose schema type is a known one, whose
    [includeForListingTypes] is missing, null or contains the listing type,
    and whose scope is public or private. *)
Definition renders_field (listingType : jsval) (entry : nullable ExtendedDataConfig)
  : Prop :=
  ∃ c, entry = Def c
    ∧ (∃ t, t ∈ EXTENDED_DATA_SCHEMA_TYPES ∧ schemaType c = VStr t)
    ∧ (includeForListingTypes c = Undefined
       ∨ includeForListingTypes c = Null
       ∨ ∃ arr, includeForListingTypes c = Def arr ∧ listingType ∈ arr)
    ∧ (scope c = VStr "public" ∨ scope c = VStr "private").

Lemma includes_elem_of (arr : list jsval) (x : jsval) :
  includes arr x = true ↔ x ∈ arr.
Proof.
  unfold includes, strict_eq. rewrite existsb_exists. split.
  - intros (y & Hy & Heq). apply bool_decide_eq_true in Heq. subst y.
    by apply list_elem_of_In.
  - intros Hin. exists x. split; [by apply list_elem_of_In|].
    by apply bool_decide_eq_true.
Qed.

Lemma isKnownSchemaType_spec (c : ExtendedDataConfig) :
  isKnownSchemaType c = true
  ↔ ∃ t, t ∈ EXTENDED_DATA_SCHEMA_TYPES ∧ schemaType c = VStr t.
Proof.
  unfold isKnownSchemaType. rewrite includes_elem_of, list_elem_of_fmap.
  split; intros (t & H1 & H2); exists t; done.
Qed.

Lemma isTargetProcessAlias_spec (listingType : jsval) (c : ExtendedDataConfig) :
  isTargetProcessAlias listingType c = true
  ↔ includeForListingTypes c = Undefined
    ∨ includeForListingTypes c = Null
    ∨ ∃ arr, includeForListingTypes c = Def arr ∧ listingType ∈ arr.
Proof.
  unfold isTargetProcessAlias.
  destruct (includeForListingTypes c) as [| |arr].
  - split; [by left|done].
  - split; [by right; left|done].
  - rewrite includes_elem_of. split.
    + intros Hin. right; right. by exists arr.
    + intros [H|[H|(arr' & H & Hin)]]; [discriminate H..|].
      by injection H as <-.
Qed.

Lemma isProviderScope_spec (c : ExtendedDataConfig) :
  isProviderScope c = true ↔ scope c = VStr "public" ∨ scope c = VStr "private".
Proof.
  unfold isProviderScope. rewrite includes_elem_of.
  rewrite !elem_of_cons, elem_of_nil. split.
  - intros [H|[H|[]]]; [by left|by right].
  - intros [H|H]; [by left|by right; left].
Qed.

Lemma isProviderScope_empty_object : isProviderScope empty_object = false.
Proof. reflexivity. Qed.

Lemma isKnownSchemaType_empty_object : isKnownSchemaType empty_object = false.
Proof.
  apply not_true_is_false. rewrite isKnownSchemaType_spec.
  intros (t & _ & Ht). discriminate Ht.
Qed.

Lemma picked_spec (listingType : jsval) (entry : nullable ExtendedDataConfig) :
  picked listingType entry = true ↔ renders_field listingType entry.
Proof.
  unfold picked, renders_field. rewrite !andb_true_iff.
  rewrite isKnownSchemaType_spec, isTargetProcessAlias_spec, isProviderScope_spec.
  split.
  - intros [[Hk Ht] Hs]. destruct entry as [| |c]; simpl in *.
    + destruct Hs as [Hs|Hs]; discriminate Hs.
    + destruct Hs as [Hs|Hs]; discriminate Hs.
    + exists c. done.
  - intros (c & -> & Hk & Ht & Hs). done.
Qed.

#[local] Instance renders_field_dec (listingType : jsval)
    (entry : nullable ExtendedDataConfig) :
  Decision (renders_field listingType entry).
Proof.
  refine (cast_if (decide (picked listingType entry = true)));
    abstract (by rewrite <- picked_spec).
Defined.

Lemma filter_renders_field (listingType : jsval)
    (l : list (nullable ExtendedDataConfig)) :
  filter (renders_field listingType) l = List.filter (picked listingType) l.
Proof.
  induction l as [|e l IH]; [done|].
  rewrite filter_cons. simpl. rewrite IH.
  destruct (picked listingType e) eqn:Hp.
  - rewrite decide_True; [done|]. by apply picked_spec.
  - rewrite decide_False; [done|]. rewrite <- picked_spec. congruence.
Qed.

(** The paragraph that shows the static message of the given id. *)
Definition error_paragraph (id : string) : node :=
  Element (Tag "p") [("className", PVal (css "error"))]
    [Element FormattedMessage [("id", PVal (VStr id))] []].

(** The value [transactionProcessAlias] has in form state. *)
Definition stored_alias (w : World) : jsval :=
  field_value (formValues w) "transactionProcessAlias".

(** The configuration a selected value stands for: the first entry of that
    listing type. *)
Definition selected_config (configs : list ListingTypeConfig) (value : jsval)
  : option ListingTypeConfig :=
  find (fun config => strict_eq (listingType config) value) configs.

(** [listingTypes] has more than one entry. *)
Definition more_than_one_entry (listingTypes : nullable (list ListingTypeConfig))
  : Prop :=
  ∃ l, listingTypes = Def l ∧ (1 < length l)%nat.

(** A hidden field: a [Field] of type hidden. *)
Definition is_hidden_field (e : node) : Prop :=
  node_type e = Some Field
  ∧ get_prop "type" (node_props e) = Some (PVal (VStr "hidden")).

(** The hidden field of a given name, as an observer of the tree sees it. *)
Definition hidden_field_named (name : string) (e : node) : Prop :=
  is_hidden_field e ∧ get_prop "name" (node_props e) = Some (PVal (VStr name)).

(** An element that is neither a form nor a text input, has no [onSubmit]
    and holds no function handed in from outside. *)
Definition passive (e : node) : bool :=
  negb (has_type Form e) && negb (has_type FieldTextInput e)
  && negb (has_prop "onSubmit" e)
  && match fn_props e with [] => true | _ => false end.

(** The reduce is a filter followed by a map, whatever was picked before. *)
Lemma fold_pick_field (listingType : jsval) (intl : Intl)
    (l : list (nullable ExtendedDataConfig)) (acc : list node) :
  fold_left (pick_field listingType intl) l acc
  = acc ++ map (custom_field intl) (List.filter (picked listingType) l).
Proof.
  revert acc. induction l as [|e l IH]; intros acc; simpl.
  - by rewrite app_nil_r.
  - rewrite IH. unfold pick_field. fold (picked listingType e).
    destruct (picked listingType e); simpl; [|done].
    by rewrite <- app_assoc.
Qed.

Lemma custom_fields_filter (listingType : jsval)
    (config : nullable (list (nullable ExtendedDataConfig))) (intl : Intl) :
  custom_fields listingType config intl
  = map (custom_field intl) (List.filter (picked listingType) (or_else config [])).
Proof. unfold custom_fields. by rewrite fold_pick_field. Qed.

(** The configurations among a list of entries, leaving out the null and
    undefined ones. *)
Definition configs_of (entries : list (nullable ExtendedDataConfig))
  : list ExtendedDataConfig :=
  omap (fun entry => match entry with Def c => Some c | _ => None end) entries.

Lemma custom_fields_of_picked (listingType : jsval) (intl : Intl)
    (l : list (nullable ExtendedDataConfig)) :
  map (custom_field intl) (List.filter (picked listingType) l)
  = map (fun c =>
           Element CustomExtendedDataField
             [("key", PVal (key c));
              ("name", PVal (key c));
              ("fieldConfig", PFieldConfig (Def c));
              ("defaultRequiredMessage",
               PVal (VStr (formatMessage intl
                             "EditListingDetailsForm.defaultRequiredMessage" [])))]
             [])
      (configs_of (List.filter (picked listingType) l)).
Proof.
  induction l as [|entry l IH]; [done|].
  cbn [List.filter]. destruct (picked listingType entry) eqn:Hp; [|exact IH].
  apply picked_spec in Hp as (c & -> & _).
  cbn [map configs_of omap list_omap].
  fold (configs_of (List.filter (picked listingType) l)).
  by rewrite IH.
Qed.

(** C1. For every listing type and every configuration list,
    [AddCustomExtendedDataFields] renders one [CustomExtendedDataField]
    element, named and keyed by the key of the entry and carrying the entry
    as its field configuration, for exactly the entries whose schema type is
    known, whose [includeForListingTypes] is null, undefined or contains the
    listing type, and whose scope is public or private, in the order of the
    configuration list; no other entry contributes a field, and the tree
    holds nothing else. *)
Theorem AddCustomExtendedDataFields_filters (listingType : jsval)
    (listingExtendedDataConfig : nullable (list (nullable ExtendedDataConfig)))
    (intl : Intl) :
  AddCustomExtendedDataFields listingType listingExtendedDataConfig intl
  = Fragment
      ((fun c =>
          Element CustomExtendedDataField
            [("key", PVal (key c));
             ("name", PVal (key c));
             ("fieldConfig", PFieldConfig (Def c));
             ("defaultRequiredMessage",
              PVal (VStr (formatMessage intl
                            "EditListingDetailsForm.defaultRequiredMessage" [])))]
            [])
       <$> configs_of (filter (renders_field listingType)
                         (or_else listingExtendedDataConfig [])))
  ∧ Forall (fun entry => ∃ c, entry = Def c)
      (filter (renders_field listingType) (or_else listingExtendedDataConfig []))
  ∧ subtrees (AddCustomExtendedDataFields listingType listingExtendedDataConfig intl)
    = node_children
        (AddCustomExtendedDataFields listingType listingExtendedDataConfig intl)
  ∧ length (subtrees
              (AddCustomExtendedDataFields listingType listingExtendedDataConfig
                 intl))
    = length (filter (renders_field listingType)
                (or_else listingExtendedDataConfig [])).
Proof.
  split; [|split; [|split]].
  - unfold AddCustomExtendedDataFields.
    by rewrite custom_fields_filter, custom_fields_of_picked,
         filter_renders_field.
  - apply Forall_forall. intros entry Hin.
    apply list_elem_of_filter in Hin as [(c & -> & _) _]. by exists c.
  - unfold AddCustomExtendedDataFields. rewrite custom_fields_filter.
    cbn [subtrees node_children].
    generalize (List.filter (picked listingType)
                  (or_else listingExtendedDataConfig [])).
    intros l. induction l as [|entry l IH]; [done|].
    cbn [map flat_map]. by rewrite IH.
  - unfold AddCustomExtendedDataFields. rewrite custom_fields_filter.
    cbn [subtrees]. rewrite filter_renders_field.
    generalize (List.filter (picked listingType)
                  (or_else listingExtendedDataConfig [])).
    intros l. induction l as [|entry l IH]; [done|].
    cbn [map flat_map length]. by rewrite <- IH.
Qed.

(** C10. A null or undefined configuration list gives an empty field list,
    and a null or undefined entry is skipped: its schema type reads as
    undefined and fails the known-schema-type check, so the list renders as
    if the entry were not there. *)
Theorem AddCustomExtendedDataFields_degenerate (listingType : jsval) (intl : Intl)
    (before after : list (nullable ExtendedDataConfig)) :
  AddCustomExtendedDataFields listingType Undefined intl = Fragment []
  ∧ AddCustomExtendedDataFields listingType Null intl = Fragment []
  ∧ isKnownSchemaType (or_else Undefined empty_object) = false
  ∧ isKnownSchemaType (or_else Null empty_object) = false
  ∧ AddCustomExtendedDataFields listingType (Def (before ++ Undefined :: after)) intl
    = AddCustomExtendedDataFields listingType (Def (before ++ after)) intl
  ∧ AddCustomExtendedDataFields listingType (Def (before ++ Null :: after)) intl
    = AddCustomExtendedDataFields listingType (Def (before ++ after)) intl.
Proof.
  assert (Hu : picked listingType Undefined = false).
  { unfold picked. simpl. by rewrite isKnownSchemaType_empty_object. }
  assert (Hn : picked listingType Null = false).
  { unfold picked. simpl. by rewrite isKnownSchemaType_empty_object. }
  repeat split; try reflexivity; try apply isKnownSchemaType_empty_object.
  - unfold AddCustomExtendedDataFields. rewrite !custom_fields_filter. simpl.
    rewrite !List.filter_app. simpl. by rewrite Hu.
  - unfold AddCustomExtendedDataFields. rewrite !custom_fields_filter. simpl.
    rewrite !List.filter_app. simpl. by rewrite Hn.
Qed.

(* --------------------------------------------------------------------- *)
(** *** ErrorMessage                                                      *)
(* --------------------------------------------------------------------- *)

Lemma ErrorMessage_cases (fetchErrors : nullable FetchErrors) :
  ErrorMessage fetchErrors = NullNode
  ∨ ErrorMessage fetchErrors = error_paragraph "EditListingDetailsForm.updateFailed"
  ∨ ErrorMessage fetchErrors
    = error_paragraph "EditListingDetailsForm.createListingDraftError"
  ∨ ErrorMessage fetchErrors
    = error_paragraph "EditListingDetailsForm.showListingFailed".
Proof.
  unfold ErrorMessage.
  destruct (truthy (updateListingError _)); [right; left; reflexivity|].
  destruct (truthy (createListingDraftError _)); [right; right; left; reflexivity|].
  destruct (truthy (showListingsError _)); [right; right; right; reflexivity|].
  left; reflexivity.
Qed.

(** C2. [ErrorMessage] shows at most one of the three static messages, by
    priority: a truthy [updateListingError] gives the update-failed message;
    otherwise a truthy [createListingDraftError] gives the create-draft
    message; otherwise a truthy [showListingsError] gives the show-listing
    message.  When [fetchErrors] is null or undefined, or none of the three
    is set, nothing is rendered. *)
Theorem ErrorMessage_priority (fetchErrors : nullable FetchErrors) :
  (length (elements_of FormattedMessage (ErrorMessage fetchErrors)) ≤ 1)%nat
  ∧ (∀ errors, fetchErrors = Def errors →
       truthy (updateListingError errors) = true →
       ErrorMessage fetchErrors
       = error_paragraph "EditListingDetailsForm.updateFailed")
  ∧ (∀ errors, fetchErrors = Def errors →
       truthy (updateListingError errors) = false →
       truthy (createListingDraftError errors) = true →
       ErrorMessage fetchErrors
       = error_paragraph "EditListingDetailsForm.createListingDraftError")
  ∧ (∀ errors, fetchErrors = Def errors →
       truthy (updateListingError errors) = false →
       truthy (createListingDraftError errors) = false →
       truthy (showListingsError errors) = true →
       ErrorMessage fetchErrors
       = error_paragraph "EditListingDetailsForm.showListingFailed")
  ∧ (∀ errors, fetchErrors = Def errors →
       truthy (updateListingError errors) = false →
       truthy (createListingDraftError errors) = false →
       truthy (showListingsError errors) = false →
       ErrorMessage fetchErrors = NullNode)
  ∧ (fetchErrors = Undefined ∨ fetchErrors = Null →
       ErrorMessage fetchErrors = NullNode)
  ∧ (ErrorMessage fetchErrors = NullNode →
       subtrees (ErrorMessage fetchErrors) = []).
Proof.
  split.
  { destruct (ErrorMessage_cases fetchErrors) as [H|[H|[H|H]]];
      rewrite H; vm_compute; lia. }
  repeat split.
  - intros e -> Hu. unfold ErrorMessage. simpl. by rewrite Hu.
  - intros e -> Hu Hc. unfold ErrorMessage. simpl. by rewrite Hu, Hc.
  - intros e -> Hu Hc Hs. unfold ErrorMessage. simpl. by rewrite Hu, Hc, Hs.
  - intros e -> Hu Hc Hs. unfold ErrorMessage. simpl. by rewrite Hu, Hc, Hs.
  - by intros [-> | ->].
  - by intros ->.
Qed.

(* --------------------------------------------------------------------- *)
(** *** handleOnChange                                                    *)
(* --------------------------------------------------------------------- *)

Lemma find_Some_elem {A : Type} (p : A → bool) (l : list A) (x : A) :
  find p l = Some x → x ∈ l ∧ p x = true.
Proof.
  induction l as [|y l IH]; simpl; [done|].
  destruct (p y) eqn:Hy.
  - intros [= ->]. split; [apply list_elem_of_here|done].
  - intros H. destruct (IH H) as [Hin Hp]. split; [by apply list_elem_of_further|done].
Qed.

Lemma find_None_iff {A : Type} (p : A → bool) (l : list A) :
  find p l = None ↔ ∀ x, x ∈ l → p x = false.
Proof.
  induction l as [|y l IH]; simpl.
  - split; [|done]. intros _ x Hx. by apply elem_of_nil in Hx.
  - destruct (p y) eqn:Hy.
    + split; [done|]. intros H. specialize (H y (list_elem_of_here _ _)). congruence.
    + rewrite IH. split.
      * intros H x Hx. apply elem_of_cons in Hx as [->|Hx]; [done|by apply H].
      * intros H x Hx. apply H. by apply list_elem_of_further.
Qed.

Lemma selected_config_Some_iff (configs : list ListingTypeConfig) (value : jsval) :
  (∃ sel, selected_config configs value = Some sel)
  ↔ ∃ c, c ∈ configs ∧ listingType c = value.
Proof.
  unfold selected_config. split.
  - intros (sel & H). apply find_Some_elem in H as [Hin Hp].
    exists sel. split; [done|]. by apply bool_decide_eq_true in Hp.
  - intros (c & Hin & Hc).
    destruct (find _ configs) as [sel|] eqn:Hf; [by exists sel|].
    rewrite find_None_iff in Hf. specialize (Hf c Hin).
    unfold strict_eq in Hf. apply bool_decide_eq_false in Hf. done.
Qed.

Lemma selected_config_None_iff (configs : list ListingTypeConfig) (value : jsval) :
  selected_config configs value = None
  ↔ ∀ c, c ∈ configs → listingType c ≠ value.
Proof.
  unfold selected_config. rewrite find_None_iff.
  split; intros H c Hin; specialize (H c Hin); unfold strict_eq in *.
  - by apply bool_decide_eq_false in H.
  - by apply bool_decide_eq_false.
Qed.

(** What the handler does once the lookup has found a configuration. *)
Lemma handleOnChange_found (configs : list ListingTypeConfig)
    (onProcessChange : nullable extfn) (value : jsval)
    (sel : ListingTypeConfig) (w : World) :
  selected_config configs value = Some sel →
  handleOnChange (Def configs) onProcessChange value w
  = (Returned tt,
     {| formValues :=
          <["unitType" := unitType sel]>
            (<["transactionProcessAlias" := transactionProcessAlias sel]>
               (formValues w));
        calls :=
          calls w ++
          match onProcessChange with
          | Def callback =>
              if strict_neq (stored_alias w) (transactionProcessAlias sel)
              then [(callback, [transactionProcessAlias sel])]
              else []
          | _ => []
          end |}).
Proof.
  unfold selected_config. intros Hsel.
  unfold handleOnChange, mbind, M_bind, find_in, getFieldStateValue, mret, M_ret.
  simpl. rewrite Hsel. unfold stored_alias. simpl.
  destruct onProcessChange as [| |callback]; simpl;
    try (by rewrite app_nil_r).
  destruct (strict_neq _ _); simpl; [done|by rewrite app_nil_r].
Qed.

(** What the handler does when no configuration has the selected value. *)
Lemma handleOnChange_not_found (configs : list ListingTypeConfig)
    (onProcessChange : nullable extfn) (value : jsval) (w : World) :
  selected_config configs value = None →
  handleOnChange (Def configs) onProcessChange value w
  = (Thrown (CannotRead VUndefined "transactionProcessAlias"), w).
Proof.
  unfold selected_config. intros Hsel.
  unfold handleOnChange, mbind, M_bind, find_in, getFieldStateValue, mret, M_ret.
  simpl. by rewrite Hsel.
Qed.

(** C3. On a change of the selection, the process-change callback is invoked
    if and only if one was provided and the alias stored in form state before
    the change differs from the alias of the selected configuration; it is
    then called once, with that alias as its only argument.  In particular
    it is not called when the stored alias already equals the selected one,
    whatever the unit types are. *)
Theorem handleOnChange_invokes_callback (configs : list ListingTypeConfig)
    (onProcessChange : nullable extfn) (value : jsval)
    (sel : ListingTypeConfig) (w : World) :
  selected_config configs value = Some sel →
  ∃ w', handleOnChange (Def configs) onProcessChange value w = (Returned tt, w')
    ∧ (calls w' ≠ calls w
       ↔ (∃ callback, onProcessChange = Def callback)
         ∧ stored_alias w ≠ transactionProcessAlias sel)
    ∧ (∀ callback, onProcessChange = Def callback →
         stored_alias w ≠ transactionProcessAlias sel →
         calls w' = calls w ++ [(callback, [transactionProcessAlias sel])])
    ∧ (stored_alias w = transactionProcessAlias sel → calls w' = calls w)
    ∧ (onProcessChange = Undefined ∨ onProcessChange = Null → calls w' = calls w).
Proof.
  intros Hsel. eexists. split; [by apply handleOnChange_found|]. simpl.
  assert (Hgrow : ∀ (l : list (extfn * list jsval)) x, l ++ [x] ≠ l).
  { intros l x H. apply (f_equal length) in H. rewrite length_app in H.
    simpl in H. lia. }
  unfold strict_neq, strict_eq.
  destruct onProcessChange as [| |callback].
  - rewrite app_nil_r. repeat split; try done.
    intros [[c Hc] _]. discriminate Hc.
  - rewrite app_nil_r. repeat split; try done.
    intros [[c Hc] _]. discriminate Hc.
  - destruct (decide (stored_alias w = transactionProcessAlias sel)) as [Heq|Hne].
    + rewrite bool_decide_eq_true_2 by done. simpl. rewrite app_nil_r.
      repeat split; try done. by intros [_ ?].
    + rewrite bool_decide_eq_false_2 by done. simpl.
      repeat split; try done.
      * by exists callback.
      * by intros c [= <-] _.
      * intros [H|H]; discriminate H.
Qed.

(** C5. When a value is selected, the handler sets [transactionProcessAlias]
    to the alias of the matching configuration and [unitType] to its unit
    type, and changes no other field of the form: every other field, title
    and description among them, keeps the value it had. *)
Theorem handleOnChange_sets_two_fields (configs : list ListingTypeConfig)
    (onProcessChange : nullable extfn) (value : jsval)
    (sel : ListingTypeConfig) (w : World) :
  selected_config configs value = Some sel →
  ∃ w', handleOnChange (Def configs) onProcessChange value w = (Returned tt, w')
    ∧ formValues w' !! "transactionProcessAlias" = Some (transactionProcessAlias sel)
    ∧ formValues w' !! "unitType" = Some (unitType sel)
    ∧ (∀ name : string, name ≠ "transactionProcessAlias" → name ≠ "unitType" →
         formValues w' !! name = formValues w !! name)
    ∧ formValues w' !! "title" = formValues w !! "title"
    ∧ formValues w' !! "description" = formValues w !! "description".
Proof.
  intros Hsel. eexists. split; [by apply handleOnChange_found|]. simpl.
  repeat split.
  - rewrite lookup_insert_ne by done. by rewrite lookup_insert_eq.
  - by rewrite lookup_insert_eq.
  - intros name H1 H2. by rewrite !lookup_insert_ne.
  - by rewrite !lookup_insert_ne.
  - by rewrite !lookup_insert_ne.
Qed.

(** C8. The handler reads a property of the result of [find] without a
    guard.  When the selected value is the listing type of some entry, the
    lookup finds an entry of that type and the handler returns; when it is
    the listing type of no entry, the handler throws on reading
    [transactionProcessAlias] of [undefined], before any change to the
    form. *)
Theorem handleOnChange_unguarded_lookup (configs : list ListingTypeConfig)
    (onProcessChange : nullable extfn) (value : jsval) (w : World) :
  ((∃ c, c ∈ configs ∧ listingType c = value)
   ↔ ∃ sel w', selected_config configs value = Some sel
       ∧ listingType sel = value
       ∧ handleOnChange (Def configs) onProcessChange value w = (Returned tt, w'))
  ∧ ((∀ c, c ∈ configs → listingType c ≠ value)
     ↔ handleOnChange (Def configs) onProcessChange value w
       = (Thrown (CannotRead VUndefined "transactionProcessAlias"), w)).
Proof.
  split; split.
  - intros H. apply selected_config_Some_iff in H as [sel Hsel].
    exists sel. eexists. split; [done|]. split.
    + apply find_Some_elem in Hsel as [_ Hp]. by apply bool_decide_eq_true in Hp.
    + by apply handleOnChange_found.
  - intros (sel & w' & Hsel & _ & _). apply selected_config_Some_iff. by exists sel.
  - intros H. apply handleOnChange_not_found. by apply selected_config_None_iff.
  - intros H. apply selected_config_None_iff.
    destruct (selected_config configs value) as [sel|] eqn:Hsel; [|done].
    rewrite (handleOnChange_found _ _ _ sel) in H by done. discriminate H.
Qed.

(* --------------------------------------------------------------------- *)
(** *** Walking a rendered tree                                           *)
(* --------------------------------------------------------------------- *)

Lemma filter_flat_map {A B : Type} (f : B → bool) (g : A → list B) (l : list A) :
  List.filter f (flat_map g l) = flat_map (fun x => List.filter f (g x)) l.
Proof.
  induction l as [|x l IH]; simpl; [done|].
  by rewrite List.filter_app, IH.
Qed.

Lemma filter_subtrees_Element (f : node → bool) t ps cs :
  List.filter f (subtrees (Element t ps cs))
  = (if f (Element t ps cs) then [Element t ps cs] else [])
    ++ flat_map (fun c => List.filter f (subtrees c)) cs.
Proof.
  simpl. rewrite filter_flat_map. by destruct (f (Element t ps cs)).
Qed.

Lemma filter_subtrees_Fragment (f : node → bool) cs :
  List.filter f (subtrees (Fragment cs))
  = flat_map (fun c => List.filter f (subtrees c)) cs.
Proof. simpl. by rewrite filter_flat_map. Qed.

Lemma filter_forallb_false {A : Type} (f g : A → bool) (l : list A) :
  (∀ x, g x = true → f x = false) →
  forallb g l = true → List.filter f l = [].
Proof.
  intros Hfg. induction l as [|x l IH]; simpl; [done|].
  rewrite andb_true_iff. intros [Hx Hl]. rewrite (Hfg x Hx). by apply IH.
Qed.

Lemma forallb_flat_map_leaves {A : Type} (g : node → bool) (mk : A → node)
    (l : list A) :
  (∀ x, forallb g (subtrees (mk x)) = true) →
  forallb g (flat_map subtrees (map mk l)) = true.
Proof.
  intros H. induction l as [|x l IH]; simpl; [done|].
  by rewrite forallb_app, H, IH.
Qed.

Lemma elem_of_subtrees_self t ps cs :
  Element t ps cs ∈ subtrees (Element t ps cs).
Proof. simpl. apply list_elem_of_here. Qed.

Lemma elem_of_subtrees_fragment (c : node) (cs : list node) (e : node) :
  c ∈ cs → e ∈ subtrees c → e ∈ subtrees (Fragment cs).
Proof.
  intros Hc He. simpl. apply list_elem_of_In, in_flat_map.
  exists c. split; by apply list_elem_of_In.
Qed.

Lemma elem_of_subtrees_child t ps (c : node) (cs : list node) (e : node) :
  c ∈ cs → e ∈ subtrees c → e ∈ subtrees (Element t ps cs).
Proof.
  intros Hc He. simpl. apply list_elem_of_further.
  apply list_elem_of_In, in_flat_map.
  exists c. split; by apply list_elem_of_In.
Qed.

(* --------------------------------------------------------------------- *)
(** *** FieldSelectListingType                                            *)
(* --------------------------------------------------------------------- *)

Lemma length_gt_1_spec (listingTypes : nullable (list ListingTypeConfig)) :
  length_gt_1 listingTypes = true ↔ more_than_one_entry listingTypes.
Proof.
  unfold more_than_one_entry. destruct listingTypes as [| |l]; simpl.
  - split; [done|]. by intros (l & H & _).
  - split; [done|]. by intros (l & H & _).
  - rewrite Nat.ltb_lt. split.
    + intros H. by exists l.
    + by intros (l' & [= <-] & H).
Qed.

Lemma FieldHidden_is_hidden (name : string) :
  hidden_field_named name (FieldHidden name).
Proof. unfold hidden_field_named, is_hidden_field. simpl. done. Qed.

Lemma FieldHidden_subtrees (name : string) :
  subtrees (FieldHidden name) = [FieldHidden name].
Proof. reflexivity. Qed.

(** The three shapes of the render, one per branch. *)
Lemma FieldSelectListingType_select (name : string) (l : list ListingTypeConfig)
    (onProcessChange : nullable extfn) (formApi : gmap string jsval) (intl : Intl) :
  (1 < length l)%nat →
  FieldSelectListingType name (Def l) false onProcessChange formApi intl
  = Fragment
      [Element FieldSelect
         [("id", PVal (VStr name));
          ("name", PVal (VStr name));
          ("className", PVal (css "listingTypeSelect"));
          ("label", PVal (VStr (formatMessage intl
                       "EditListingDetailsForm.listingTypeLabel" [])));
          ("validate", PValidate (required (formatMessage intl
                       "EditListingDetailsForm.listingTypeRequired" [])));
          ("onChange", POnChange
             {| closure_listingTypes := Def l;
                closure_onProcessChange := onProcessChange |})]
         (Element (Tag "option")
            [("disabled", PVal (VBool true)); ("value", PVal (VStr ""))]
            [Text (VStr (formatMessage intl
                     "EditListingDetailsForm.listingTypePlaceholder" []))]
          :: map listing_type_option l);
       FieldHidden "transactionProcessAlias";
       FieldHidden "unitType"].
Proof.
  intros Hl. unfold FieldSelectListingType. simpl.
  apply Nat.ltb_lt in Hl. by rewrite Hl.
Qed.

Lemma FieldSelectListingType_readonly (name : string) (l : list ListingTypeConfig)
    (onProcessChange : nullable extfn) (formApi : gmap string jsval) (intl : Intl) :
  (1 < length l)%nat →
  FieldSelectListingType name (Def l) true onProcessChange formApi intl
  = Element (Tag "div") [("className", PVal (css "listingTypeSelect"))]
      [Element Heading
         [("as", PVal (VStr "h5")); ("rootClassName", PVal (css "selectedLabel"))]
         [Text (VStr (formatMessage intl
                  "EditListingDetailsForm.listingTypeLabel" []))];
       Element (Tag "p") [("className", PVal (css "selectedValue"))]
         [Text (field_value formApi name)];
       FieldHidden name;
       FieldHidden "transactionProcessAlias";
       FieldHidden "unitType"].
Proof.
  intros Hl. unfold FieldSelectListingType. simpl.
  apply Nat.ltb_lt in Hl. by rewrite Hl.
Qed.

Lemma FieldSelectListingType_hidden (name : string)
    (listingTypes : nullable (list ListingTypeConfig))
    (hasExistingListingType : bool) (onProcessChange : nullable extfn)
    (formApi : gmap string jsval) (intl : Intl) :
  length_gt_1 listingTypes = false →
  FieldSelectListingType name listingTypes hasExistingListingType
    onProcessChange formApi intl
  = Fragment
      [FieldHidden name;
       FieldHidden "transactionProcessAlias";
       FieldHidden "unitType"].
Proof. intros Hl. unfold FieldSelectListingType. by rewrite Hl. Qed.

(** The render falls in one of the three branches. *)
Lemma FieldSelectListingType_branch
    (listingTypes : nullable (list ListingTypeConfig))
    (hasExistingListingType : bool) :
  (∃ l, listingTypes = Def l ∧ (1 < length l)%nat ∧ hasExistingListingType = false)
  ∨ (∃ l, listingTypes = Def l ∧ (1 < length l)%nat ∧ hasExistingListingType = true)
  ∨ length_gt_1 listingTypes = false.
Proof.
  destruct (length_gt_1 listingTypes) eqn:Hl; [|by right; right].
  apply length_gt_1_spec in Hl as (l & -> & Hl).
  destruct hasExistingListingType; [right; left|left]; by exists l.
Qed.

Lemma listing_type_option_subtrees (config : ListingTypeConfig) :
  subtrees (listing_type_option config) = [listing_type_option config].
Proof. reflexivity. Qed.

Lemma options_without (f : node → bool) (l : list ListingTypeConfig) :
  (∀ config, f (listing_type_option config) = false) →
  flat_map (fun c => List.filter f (subtrees c)) (map listing_type_option l) = [].
Proof.
  intros Hf. induction l as [|c l IH]; [done|].
  cbn [map flat_map]. rewrite IH, listing_type_option_subtrees, app_nil_r.
  cbn [List.filter]. by rewrite Hf.
Qed.

(** C4. [FieldSelectListingType] renders the interactive select if and only
    if [listingTypes] has more than one entry and [hasExistingListingType] is
    false; the select then carries a required validator and holds a disabled
    placeholder option followed by one option per configuration, keyed and
    valued by its listing type and labelled by its label.  With more than one
    entry and an existing listing type it renders a heading and the current
    value of the field instead, and no select.  In the remaining cases it
    renders hidden fields only. *)
Theorem FieldSelectListingType_branches (name : string)
    (listingTypes : nullable (list ListingTypeConfig))
    (hasExistingListingType : bool) (onProcessChange : nullable extfn)
    (formApi : gmap string jsval) (intl : Intl) :
  (elements_of FieldSelect
     (FieldSelectListingType name listingTypes hasExistingListingType
        onProcessChange formApi intl) ≠ []
   ↔ more_than_one_entry listingTypes ∧ hasExistingListingType = false)
  ∧ (∀ l, listingTypes = Def l → (1 < length l)%nat →
       hasExistingListingType = false →
       ∃ ps, elements_of FieldSelect
               (FieldSelectListingType name listingTypes hasExistingListingType
                  onProcessChange formApi intl)
             = [Element FieldSelect ps
                  (Element (Tag "option")
                     [("disabled", PVal (VBool true)); ("value", PVal (VStr ""))]
                     [Text (VStr (formatMessage intl
                              "EditListingDetailsForm.listingTypePlaceholder" []))]
                   :: map (fun config =>
                             Element (Tag "option")
                               [("key", PVal (listingType config));
                                ("value", PVal (listingType config))]
                               [Text (label config)]) l)]
         ∧ get_prop "name" ps = Some (PVal (VStr name))
         ∧ get_prop "validate" ps
           = Some (PValidate (required (formatMessage intl
                     "EditListingDetailsForm.listingTypeRequired" [])))
         ∧ get_prop "onChange" ps
           = Some (POnChange {| closure_listingTypes := listingTypes;
                                closure_onProcessChange := onProcessChange |}))
  ∧ (more_than_one_entry listingTypes → hasExistingListingType = true →
       ∃ hps pps,
         elements_of Heading
           (FieldSelectListingType name listingTypes hasExistingListingType
              onProcessChange formApi intl)
         = [Element Heading hps
              [Text (VStr (formatMessage intl
                       "EditListingDetailsForm.listingTypeLabel" []))]]
         ∧ elements_of (Tag "p")
             (FieldSelectListingType name listingTypes hasExistingListingType
                onProcessChange formApi intl)
           = [Element (Tag "p") pps [Text (field_value formApi name)]]
         ∧ Forall (fun e => node_type e = Some (Tag "div")
                            ∨ node_type e = Some Heading
                            ∨ node_type e = Some (Tag "p")
                            ∨ is_hidden_field e)
             (subtrees (FieldSelectListingType name listingTypes
                          hasExistingListingType onProcessChange formApi intl)))
  ∧ (¬ more_than_one_entry listingTypes →
       FieldSelectListingType name listingTypes hasExistingListingType
         onProcessChange formApi intl
       = Fragment [FieldHidden name;
                   FieldHidden "transactionProcessAlias";
                   FieldHidden "unitType"]
       ∧ Forall is_hidden_field
           (subtrees (FieldSelectListingType name listingTypes
                        hasExistingListingType onProcessChange formApi intl))).
Proof.
  assert (Hopt : ∀ c, has_type FieldSelect (listing_type_option c) = false)
    by reflexivity.
  split; [|split; [|split]].
  - destruct (FieldSelectListingType_branch listingTypes hasExistingListingType)
      as [(l & -> & Hl & ->)|[(l & -> & Hl & ->)|Hl]].
    + rewrite FieldSelectListingType_select by done.
      unfold elements_of. rewrite filter_subtrees_Fragment. simpl.
      split; [|done]. intros _. split; [by exists l|done].
    + rewrite FieldSelectListingType_readonly by done.
      split; [by vm_compute|]. by intros [_ ?].
    + rewrite FieldSelectListingType_hidden by done.
      split; [by vm_compute|]. intros [Hm _].
      apply length_gt_1_spec in Hm. congruence.
  - intros l -> Hl ->. rewrite FieldSelectListingType_select by done.
    eexists. split; [|split; [|split]].
    + unfold elements_of. rewrite filter_subtrees_Fragment. simpl.
      rewrite filter_flat_map, (options_without _ l Hopt). reflexivity.
    + reflexivity.
    + reflexivity.
    + reflexivity.
  - intros (l & -> & Hl) ->. rewrite FieldSelectListingType_readonly by done.
    eexists. eexists. split; [reflexivity|]. split; [reflexivity|].
    simpl. unfold is_hidden_field.
    repeat first [apply Forall_nil | apply Forall_cons; split];
      simpl; auto 6.
  - intros Hm. assert (Hl : length_gt_1 listingTypes = false).
    { apply not_true_is_false. by rewrite length_gt_1_spec. }
    rewrite FieldSelectListingType_hidden by done.
    split; [done|]. simpl. repeat constructor.
Qed.

Lemma FieldHidden_in_subtrees (name : string) :
  FieldHidden name ∈ subtrees (FieldHidden name).
Proof. rewrite FieldHidden_subtrees. apply list_elem_of_here. Qed.

(** Membership in a list given by its elements. *)
Ltac in_list :=
  first [apply list_elem_of_here | apply list_elem_of_further; in_list].

(** The hidden field of the given name is a child of the root of the tree. *)
Ltac show_hidden n :=
  exists (FieldHidden n);
  split; [|apply FieldHidden_is_hidden];
  first [apply (elem_of_subtrees_fragment (FieldHidden n))
        | apply (elem_of_subtrees_child _ _ (FieldHidden n))];
  [in_list | apply FieldHidden_in_subtrees].

(** C9. In every branch of [FieldSelectListingType] the rendered tree holds
    hidden fields named [transactionProcessAlias] and [unitType]; and when no
    interactive select is rendered it holds a hidden field for the
    listing-type name as well. *)
Theorem FieldSelectListingType_hidden_fields (name : string)
    (listingTypes : nullable (list ListingTypeConfig))
    (hasExistingListingType : bool) (onProcessChange : nullable extfn)
    (formApi : gmap string jsval) (intl : Intl) :
  (∃ e, e ∈ subtrees (FieldSelectListingType name listingTypes
                        hasExistingListingType onProcessChange formApi intl)
        ∧ hidden_field_named "transactionProcessAlias" e)
  ∧ (∃ e, e ∈ subtrees (FieldSelectListingType name listingTypes
                          hasExistingListingType onProcessChange formApi intl)
          ∧ hidden_field_named "unitType" e)
  ∧ (elements_of FieldSelect
       (FieldSelectListingType name listingTypes hasExistingListingType
          onProcessChange formApi intl) = [] →
     ∃ e, e ∈ subtrees (FieldSelectListingType name listingTypes
                          hasExistingListingType onProcessChange formApi intl)
          ∧ hidden_field_named name e).
Proof.
  destruct (FieldSelectListingType_branch listingTypes hasExistingListingType)
    as [(l & -> & Hl & ->)|[(l & -> & Hl & ->)|Hl]].
  - rewrite FieldSelectListingType_select by done.
    split; [|split].
    + show_hidden "transactionProcessAlias".
    + show_hidden "unitType".
    + unfold elements_of. rewrite filter_subtrees_Fragment. simpl.
      intros H. discriminate H.
  - rewrite FieldSelectListingType_readonly by done.
    split; [|split; [|intros _]].
    + show_hidden "transactionProcessAlias".
    + show_hidden "unitType".
    + show_hidden name.
  - rewrite FieldSelectListingType_hidden by done.
    split; [|split; [|intros _]].
    + show_hidden "transactionProcessAlias".
    + show_hidden "unitType".
    + show_hidden name.
Qed.

(* --------------------------------------------------------------------- *)
(** *** The rendered form                                                 *)
(* --------------------------------------------------------------------- *)

Lemma passive_not_text_input (e : node) :
  passive e = true → has_type FieldTextInput e = false.
Proof.
  unfold passive. rewrite !andb_true_iff, !negb_true_iff. tauto.
Qed.

Lemma passive_not_form (e : node) :
  passive e = true → has_type Form e = false.
Proof.
  unfold passive. rewrite !andb_true_iff, !negb_true_iff. tauto.
Qed.

Lemma passive_no_onSubmit (e : node) :
  passive e = true → has_prop "onSubmit" e = false.
Proof.
  unfold passive. rewrite !andb_true_iff, !negb_true_iff. tauto.
Qed.

Lemma passive_no_fn_props (l : list node) :
  forallb passive l = true → flat_map fn_props l = [].
Proof.
  induction l as [|e l IH]; simpl; [done|].
  rewrite andb_true_iff. intros [He Hl]. rewrite (IH Hl), app_nil_r.
  unfold passive in He. rewrite !andb_true_iff in He.
  destruct He as [_ He]. by destruct (fn_props e).
Qed.

Lemma ErrorMessage_passive (fetchErrors : nullable FetchErrors) :
  forallb passive (subtrees (ErrorMessage fetchErrors)) = true.
Proof.
  destruct (ErrorMessage_cases fetchErrors) as [H|[H|[H|H]]];
    rewrite H; reflexivity.
Qed.

Lemma FieldSelectListingType_passive (name : string)
    (listingTypes : nullable (list ListingTypeConfig))
    (hasExistingListingType : bool) (onProcessChange : nullable extfn)
    (formApi : gmap string jsval) (intl : Intl) :
  forallb passive
    (subtrees (FieldSelectListingType name listingTypes hasExistingListingType
                 onProcessChange formApi intl)) = true.
Proof.
  destruct (FieldSelectListingType_branch listingTypes hasExistingListingType)
    as [(l & -> & Hl & ->)|[(l & -> & Hl & ->)|Hl]].
  - rewrite FieldSelectListingType_select by done.
    cbn [subtrees flat_map]. rewrite !forallb_app. cbn [forallb app].
    rewrite ?forallb_app.
    rewrite (forallb_flat_map_leaves passive listing_type_option l)
      by (intros; reflexivity).
    reflexivity.
  - rewrite FieldSelectListingType_readonly by done. reflexivity.
  - rewrite FieldSelectListingType_hidden by done. reflexivity.
Qed.

Lemma AddCustomExtendedDataFields_passive (listingType : jsval)
    (config : nullable (list (nullable ExtendedDataConfig))) (intl : Intl) :
  forallb passive
    (subtrees (AddCustomExtendedDataFields listingType config intl)) = true.
Proof.
  unfold AddCustomExtendedDataFields. rewrite custom_fields_filter.
  cbn [subtrees]. apply forallb_flat_map_leaves. intros; reflexivity.
Qed.

(** A filter that rejects passive elements finds, in the rendered form, what
    it finds among the form itself, the two text inputs and the button. *)
Lemma filter_render (f : node → bool) (rp : FormRenderProps) :
  (∀ e, passive e = true → f e = false) →
  ∃ ps title description button,
    render rp = Element Form ps
                  [ErrorMessage (fetchErrors rp);
                   title; description;
                   FieldSelectListingType "listingType"
                     (selectableListingTypes rp) (hasExistingListingType rp)
                     (onProcessChange rp) (form rp) (intl rp);
                   AddCustomExtendedDataFields
                     (default VUndefined (values rp !! "listingType"))
                     (listingExtendedDataConfig rp) (intl rp);
                   button]
    ∧ List.filter f (subtrees (render rp))
      = List.filter f [render rp; title; description; button].
Proof.
  intros Hf. do 4 eexists. split; [reflexivity|].
  unfold render. rewrite filter_subtrees_Element. cbn [flat_map].
  rewrite (filter_forallb_false f passive _ Hf (ErrorMessage_passive _)).
  rewrite (filter_forallb_false f passive _ Hf
             (FieldSelectListingType_passive _ _ _ _ _ _)).
  rewrite (filter_forallb_false f passive _ Hf
             (AddCustomExtendedDataFields_passive _ _ _)).
  cbn [subtrees flat_map List.filter app].
  repeat match goal with |- context [if ?b then _ else _] => destruct b end;
    reflexivity.
Qed.

Lemma get_prop_set_prop_eq (name : string) (p : prop) (props : list (string * prop)) :
  get_prop name (set_prop name p props) = Some p.
Proof.
  induction props as [|[n q] props IH]; simpl.
  - by rewrite String.eqb_refl.
  - destruct (String.eqb n name) eqn:Hn; simpl; by rewrite Hn.
Qed.

Lemma get_prop_set_prop_ne (name other : string) (p : prop)
    (props : list (string * prop)) :
  name ≠ other →
  get_prop other (set_prop name p props) = get_prop other props.
Proof.
  intros Hne. induction props as [|[n q] props IH]; simpl.
  - destruct (String.eqb name other) eqn:H; [|done].
    apply String.eqb_eq in H. done.
  - destruct (String.eqb n name) eqn:Hn; simpl.
    + apply String.eqb_eq in Hn as ->.
      destruct (String.eqb name other) eqn:H; [|done].
      apply String.eqb_eq in H. done.
    + by rewrite IH.
Qed.

(** C6. The title field is validated by the composition of a required
    validator and a max-length validator of limit 60, and its input carries
    [maxLength] 60; the description field is validated by a required
    validator alone; each validator carries its translated message
    (titleRequired, maxLength with the limit interpolated,
    descriptionRequired). *)
Theorem title_and_description_validators (rp : FormRenderProps) :
  TITLE_MAX_LENGTH = 60%Z
  ∧ ∃ title description,
      elements_of FieldTextInput (render rp) = [title; description]
      ∧ get_prop "name" (node_props title) = Some (PVal (VStr "title"))
      ∧ get_prop "validate" (node_props title)
        = Some (PValidate
                  (composeValidators
                     [required (formatMessage (intl rp)
                                  "EditListingDetailsForm.titleRequired" []);
                      maxLength (formatMessage (intl rp)
                                   "EditListingDetailsForm.maxLength"
                                   [("maxLength", VNum 60)]) 60]))
      ∧ get_prop "maxLength" (node_props title) = Some (PVal (VNum 60))
      ∧ get_prop "name" (node_props description)
        = Some (PVal (VStr "description"))
      ∧ get_prop "validate" (node_props description)
        = Some (PValidate
                  (required (formatMessage (intl rp)
                               "EditListingDetailsForm.descriptionRequired" []))).
Proof.
  split; [reflexivity|].
  destruct (filter_render (has_type FieldTextInput) rp passive_not_text_input)
    as (ps & title & description & button & Hr & Hf).
  unfold elements_of. rewrite Hf.
  unfold render in Hr. injection Hr as <- <- <- <-.
  do 2 eexists. split; [reflexivity|]. repeat split.
Qed.

(** What reaches a submit handler: the handler, and the form values it is
    given. *)
Inductive submit_event : Type :=
| Submitted (handler : extfn) (submitted : gmap string jsval).

(** The function a [render] prop holds: [PRenderFn] is the [render] of this
    file. *)
Definition render_fn (p : prop) : option (FormRenderProps → node) :=
  match p with
  | PRenderFn => Some render
  | _ => None
  end.

(** The tree the form-state component shows: it calls the function in its
    [render] prop with the render props. *)
Definition rendered_by (form_element : node) (rp : FormRenderProps) : option node :=
  match node_type form_element with
  | Some FinalForm =>
      f ← get_prop "render" (node_props form_element) ≫= render_fn;
      Some (f rp)
  | _ => None
  end.

(** Modelled from the spec: the [Form] component (from [components]) is not
    among the sources.  A submit in a tree runs every function installed as
    an [onSubmit] of one of its elements; [invoke] says what running a
    function from outside emits. *)
Definition submit (invoke : extfn → list submit_event) (tree : node)
  : list submit_event :=
  flat_map
    (fun e => match get_prop "onSubmit" (node_props e) with
              | Some (PFn f) => invoke f
              | _ => []
              end)
    (subtrees tree).

(** The contract of the form-state library on which the submit path rests:
    the [handleSubmit] it hands to the render function, when run, passes the
    current form values to the function the form-state component received
    as [onSubmit]. *)
Definition supplies_handleSubmit (invoke : extfn → list submit_event)
    (form_element : node) (rp : FormRenderProps) : Prop :=
  ∀ onSubmit, get_prop "onSubmit" (node_props form_element) = Some (PFn onSubmit) →
    invoke (handleSubmit rp) = [Submitted onSubmit (values rp)].

(** The wiring of the rendered form. *)
Lemma render_submit_wiring (rp : FormRenderProps) :
  node_type (render rp) = Some Form
  ∧ get_prop "onSubmit" (node_props (render rp)) = Some (PFn (handleSubmit rp))
  ∧ elements_of Form (render rp) = [render rp]
  ∧ List.filter (has_prop "onSubmit") (subtrees (render rp)) = [render rp]
  ∧ flat_map fn_props (subtrees (render rp))
    = [("onSubmit", PFn (handleSubmit rp))].
Proof.
  split; [reflexivity|]. split; [reflexivity|]. split; [|split].
  - destruct (filter_render (has_type Form) rp passive_not_form)
      as (ps & title & description & button & Hr & Hf).
    unfold elements_of. rewrite Hf.
    unfold render in Hr at 1. injection Hr as <- <- <- <-. reflexivity.
  - destruct (filter_render (has_prop "onSubmit") rp passive_no_onSubmit)
      as (ps & title & description & button & Hr & Hf).
    rewrite Hf.
    unfold render in Hr at 1. injection Hr as <- <- <- <-. reflexivity.
  - unfold render. cbn [subtrees flat_map]. rewrite !flat_map_app.
    rewrite (passive_no_fn_props _ (ErrorMessage_passive _)).
    rewrite (passive_no_fn_props _ (FieldSelectListingType_passive _ _ _ _ _ _)).
    rewrite (passive_no_fn_props _ (AddCustomExtendedDataFields_passive _ _ _)).
    reflexivity.
Qed.

Lemma rendered_by_component (props : list (string * prop)) (rp : FormRenderProps) :
  rendered_by (EditListingDetailsFormComponent props) rp = Some (render rp).
Proof.
  unfold rendered_by, EditListingDetailsFormComponent. cbn [node_type node_props].
  by rewrite get_prop_set_prop_eq.
Qed.

Lemma onSubmit_forwarded (props : list (string * prop)) :
  get_prop "onSubmit" (node_props (EditListingDetailsFormComponent props))
  = get_prop "onSubmit" props.
Proof.
  unfold EditListingDetailsFormComponent. cbn [node_props].
  by rewrite !get_prop_set_prop_ne.
Qed.

(** A submit only concerns the elements that have an [onSubmit]. *)
Lemma submit_filter (invoke : extfn → list submit_event) (l : list node) :
  flat_map
    (fun e => match get_prop "onSubmit" (node_props e) with
              | Some (PFn f) => invoke f
              | _ => []
              end) l
  = flat_map
      (fun e => match get_prop "onSubmit" (node_props e) with
                | Some (PFn f) => invoke f
                | _ => []
                end) (List.filter (has_prop "onSubmit") l).
Proof.
  induction l as [|e l IH]; [done|].
  cbn [flat_map List.filter]. unfold has_prop at 1.
  destruct (get_prop "onSubmit" (node_props e)) as [p|] eqn:He.
  - cbn [flat_map]. by rewrite He, IH.
  - exact IH.
Qed.

(** C7. The rendered form's [onSubmit] is exactly the [handleSubmit] the
    form-state library supplies in the render props.  So, the library's
    [handleSubmit] passing the current form values to the [onSubmit] it was
    given, a submit of the form emits one submit event, carrying the current
    form values to the submit handler the component accepted.  The component
    adds no other submit path: the form is the only element with an
    [onSubmit] and [handleSubmit] is the only function from outside in the
    tree. *)
Theorem form_onSubmit_is_handleSubmit (invoke : extfn → list submit_event)
    (props : list (string * prop)) (rp : FormRenderProps)
    (submitHandler : extfn) :
  get_prop "onSubmit" props = Some (PFn submitHandler) →
  supplies_handleSubmit invoke (EditListingDetailsFormComponent props) rp →
  ∃ tree,
    rendered_by (EditListingDetailsFormComponent props) rp = Some tree
    ∧ node_type tree = Some Form
    ∧ get_prop "onSubmit" (node_props tree) = Some (PFn (handleSubmit rp))
    ∧ submit invoke tree = [Submitted submitHandler (values rp)]
    ∧ elements_of Form tree = [tree]
    ∧ List.filter (has_prop "onSubmit") (subtrees tree) = [tree]
    ∧ flat_map fn_props (subtrees tree) = [("onSubmit", PFn (handleSubmit rp))]
    ∧ get_prop "onSubmit" (node_props (EditListingDetailsFormComponent props))
      = Some (PFn submitHandler).
Proof.
  intros Haccepted Hlibrary.
  destruct (render_submit_wiring rp) as (Htype & HonSubmit & Hforms & Honly & Hfns).
  assert (Hforwarded :
    get_prop "onSubmit" (node_props (EditListingDetailsFormComponent props))
    = Some (PFn submitHandler)) by (by rewrite onSubmit_forwarded).
  exists (render rp). split; [apply rendered_by_component|].
  split; [exact Htype|]. split; [exact HonSubmit|].
  split; [|by repeat split].
  unfold submit. rewrite submit_filter, Honly. cbn [flat_map].
  rewrite HonSubmit, app_nil_r. by apply Hlibrary.
Qed.

(* --------------------------------------------------------------------- *)
(** *** Further properties of handleOnChange                              *)
(* --------------------------------------------------------------------- *)

(** The world a successful run leaves. *)
Definition world_after (sel : ListingTypeConfig)
    (onProcessChange : nullable extfn) (w : World) : World :=
  {| formValues :=
       <["unitType" := unitType sel]>
         (<["transactionProcessAlias" := transactionProcessAlias sel]>
            (formValues w));
     calls :=
       calls w ++
       match onProcessChange with
       | Def callback =>
           if strict_neq (stored_alias w) (transactionProcessAlias sel)
           then [(callback, [transactionProcessAlias sel])]
           else []
       | _ => []
       end |}.








(** What running a function handed in from outside does: any computation
    on the world, which may return or throw. *)
Definition behaviour : Type := extfn → list jsval → M unit.

(** A callback that does nothing and returns. *)
Definition returns : behaviour := fun _ _ => mret tt.

(** Calling a callback prop whose behaviour is known: the call is recorded,
    then the callback runs. *)
Definition call_with (run : behaviour) (f : extfn) (args : list jsval) : M unit :=
  fun w => run f args
             {| formValues := formValues w; calls := calls w ++ [(f, args)] |}.

(** [handleOnChange] with the behaviour of the callback made explicit: the
    same statements, the call of [onProcessChange] being a call of a function
    that may throw. *)
Definition handleOnChange_with (run : behaviour)
    (listingTypes : nullable (list ListingTypeConfig))
    (onProcessChange : nullable extfn)
    (value : jsval) : M unit :=
  storedAlias ← getFieldStateValue "transactionProcessAlias";
  found ← find_in listingTypes (fun config => strict_eq (listingType config) value);
  match found with
  | None => throw (CannotRead VUndefined "transactionProcessAlias")
  | Some selectedListingType =>
      change "transactionProcessAlias" (transactionProcessAlias selectedListingType);;
      change "unitType" (unitType selectedListingType);;
      let hasProcessChanged :=
        strict_neq storedAlias (transactionProcessAlias selectedListingType) in
      match onProcessChange with
      | Def callback =>
          if hasProcessChanged
          then call_with run callback [transactionProcessAlias selectedListingType]
          else mret tt
      | _ => mret tt
      end
  end.

Definition run_onChange_with (run : behaviour) (h : OnChangeClosure)
    (value : jsval) : M unit :=
  handleOnChange_with run (closure_listingTypes h) (closure_onProcessChange h) value.

(** The world once both fields are written, before any callback runs. *)
Definition after_writes (sel : ListingTypeConfig) (w : World) : World :=
  {| formValues :=
       <["unitType" := unitType sel]>
         (<["transactionProcessAlias" := transactionProcessAlias sel]>
            (formValues w));
     calls := calls w |}.

(** The callback to call, if one is given and the process alias changes. *)
Definition callback_due (onProcessChange : nullable extfn)
    (sel : ListingTypeConfig) (w : World) : option extfn :=
  match onProcessChange with
  | Def callback =>
      if strict_neq (stored_alias w) (transactionProcessAlias sel)
      then Some callback else None
  | _ => None
  end.

(** With a callback that returns, this is the handler of the claims. *)
Lemma handleOnChange_with_returns
    (listingTypes : nullable (list ListingTypeConfig))
    (onProcessChange : nullable extfn) (value : jsval) (w : World) :
  handleOnChange_with returns listingTypes onProcessChange value w
  = handleOnChange listingTypes onProcessChange value w.
Proof.
  unfold handleOnChange_with, handleOnChange, mbind, M_bind, find_in,
    getFieldStateValue, mret, M_ret.
  destruct listingTypes as [| |configs]; [done..|]. cbn.
  destruct (find _ configs) as [sel|]; [|done]. cbn.
  destruct onProcessChange as [| |callback]; [done..|].
  by destruct (strict_neq _ _).
Qed.

Lemma handleOnChange_with_found (run : behaviour)
    (configs : list ListingTypeConfig) (onProcessChange : nullable extfn)
    (value : jsval) (sel : ListingTypeConfig) (w : World) :
  selected_config configs value = Some sel →
  handleOnChange_with run (Def configs) onProcessChange value w
  = match callback_due onProcessChange sel w with
    | Some callback =>
        call_with run callback [transactionProcessAlias sel] (after_writes sel w)
    | None => (Returned tt, after_writes sel w)
    end.
Proof.
  unfold selected_config. intros Hsel.
  unfold handleOnChange_with, callback_due, mbind, M_bind, find_in,
    getFieldStateValue, mret, M_ret.
  cbn. rewrite Hsel. cbn. fold (stored_alias w).
  destruct onProcessChange as [| |callback]; [done..|].
  by destruct (strict_neq _ _).
Qed.

Lemma handleOnChange_with_not_found (run : behaviour)
    (listingTypes : nullable (list ListingTypeConfig))
    (onProcessChange : nullable extfn) (value : jsval) (w : World) :
  (∀ configs, listingTypes = Def configs → selected_config configs value = None) →
  ∃ e, e ∈ [CannotRead VUndefined "find"; CannotRead VNull "find";
            CannotRead VUndefined "transactionProcessAlias"]
       ∧ handleOnChange_with run listingTypes onProcessChange value w
         = (Thrown e, w).
Proof.
  intros Hnone. destruct listingTypes as [| |configs].
  - eexists. split; [|reflexivity]. apply list_elem_of_here.
  - eexists. split; [|reflexivity]. apply list_elem_of_further, list_elem_of_here.
  - specialize (Hnone configs eq_refl). unfold selected_config in Hnone.
    eexists. split; [do 2 apply list_elem_of_further; apply list_elem_of_here|].
    unfold handleOnChange_with, mbind, M_bind, find_in, getFieldStateValue,
      mret, M_ret. cbn. by rewrite Hnone.
Qed.

(** X4. How the handler throws, whatever the callback does.  A throw of its
    own (no list of listing types, or no configuration of the selected
    value) comes before anything is changed or called: the form and the
    record of calls are as they were.  Otherwise both fields are written
    first; the callback, when one is due, runs last, in the world that holds
    both writes, and its outcome is the outcome of the handler.  So the
    handler is not atomic: when the callback throws, the handler throws the
    same exception and the two fields already hold their new values. *)
Theorem handleOnChange_throw_points (run : behaviour)
    (listingTypes : nullable (list ListingTypeConfig))
    (onProcessChange : nullable extfn) (value : jsval) (w : World) :
  ((∀ configs, listingTypes = Def configs → selected_config configs value = None) →
   ∃ e, e ∈ [CannotRead VUndefined "find"; CannotRead VNull "find";
             CannotRead VUndefined "transactionProcessAlias"]
        ∧ handleOnChange_with run listingTypes onProcessChange value w
          = (Thrown e, w))
  ∧ (∀ configs sel, listingTypes = Def configs →
       selected_config configs value = Some sel →
       callback_due onProcessChange sel w = None →
       handleOnChange_with run listingTypes onProcessChange value w
       = (Returned tt, after_writes sel w))
  ∧ (∀ configs sel callback, listingTypes = Def configs →
       selected_config configs value = Some sel →
       callback_due onProcessChange sel w = Some callback →
       handleOnChange_with run listingTypes onProcessChange value w
       = run callback [transactionProcessAlias sel]
           {| formValues := formValues (after_writes sel w);
              calls := calls w ++ [(callback, [transactionProcessAlias sel])] |})
  ∧ (∀ configs sel callback e, listingTypes = Def configs →
       selected_config configs value = Some sel →
       callback_due onProcessChange sel w = Some callback →
       (∀ w0, run callback [transactionProcessAlias sel] w0 = (Thrown e, w0)) →
       ∃ w', handleOnChange_with run listingTypes onProcessChange value w
             = (Thrown e, w')
         ∧ formValues w' !! "transactionProcessAlias"
           = Some (transactionProcessAlias sel)
         ∧ formValues w' !! "unitType" = Some (unitType sel)).
Proof.
  split; [|split; [|split]].
  - intros Hnone.
    exact (handleOnChange_with_not_found run listingTypes onProcessChange
             value w Hnone).
  - intros configs sel -> Hsel Hdue.
    by rewrite (handleOnChange_with_found _ _ _ _ sel), Hdue.
  - intros configs sel callback -> Hsel Hdue.
    by rewrite (handleOnChange_with_found _ _ _ _ sel), Hdue.
  - intros configs sel callback e -> Hsel Hdue Hthrows.
    rewrite (handleOnChange_with_found _ _ _ _ sel), Hdue by done.
    unfold call_with. rewrite Hthrows. eexists. split; [reflexivity|].
    cbn [formValues after_writes]. split.
    + rewrite lookup_insert_ne by done. by rewrite lookup_insert_eq.
    + by rewrite lookup_insert_eq.
Qed.

(** X5. When several configurations share a listing type, the first one in
    the list is the one whose alias and unit type are stored. *)
Theorem handleOnChange_first_match
    (before after : list ListingTypeConfig) (config : ListingTypeConfig)
    (onProcessChange : nullable extfn) (w : World) :
  (∀ c, c ∈ before → listingType c ≠ listingType config) →
  ∃ w', handleOnChange (Def (before ++ config :: after)) onProcessChange
          (listingType config) w = (Returned tt, w')
    ∧ formValues w' !! "transactionProcessAlias"
      = Some (transactionProcessAlias config)
    ∧ formValues w' !! "unitType" = Some (unitType config).
Proof.
  intros Hbefore.
  assert (Hsel : selected_config (before ++ config :: after) (listingType config)
                 = Some config).
  { unfold selected_config. induction before as [|c before IH]; simpl.
    - unfold strict_eq. by rewrite bool_decide_eq_true_2.
    - unfold strict_eq at 1. rewrite bool_decide_eq_false_2.
      + apply IH. intros c' Hc'. apply Hbefore. by apply list_elem_of_further.
      + apply Hbefore. apply list_elem_of_here. }
  exists (world_after config onProcessChange w).
  split; [by apply handleOnChange_found|].
  unfold world_after. simpl. split.
  - rewrite lookup_insert_ne by done. by rewrite lookup_insert_eq.
  - by rewrite lookup_insert_eq.
Qed.

(* --------------------------------------------------------------------- *)
(** *** Further properties of AddCustomExtendedDataFields                 *)
(* --------------------------------------------------------------------- *)

(** An entry that is not restricted to some listing types. *)
Definition unrestricted (entry : nullable ExtendedDataConfig) : bool :=
  is_nullish (includeForListingTypes (or_else entry empty_object)).

(** The test of the reducer without its listing-type part. *)
Definition known_and_provider_scope (entry : nullable ExtendedDataConfig) : bool :=
  let c := or_else entry empty_object in
  isKnownSchemaType c && isProviderScope c.

Lemma filter_ext_elem {A : Type} (f g : A → bool) (l : list A) :
  (∀ x, x ∈ l → f x = g x) → List.filter f l = List.filter g l.
Proof.
  induction l as [|x l IH]; intros H; simpl; [done|].
  rewrite (H x) by apply list_elem_of_here.
  rewrite IH; [done|]. intros y Hy. apply H. by apply list_elem_of_further.
Qed.

Lemma picked_unrestricted (listingType : jsval)
    (entry : nullable ExtendedDataConfig) :
  unrestricted entry = true →
  picked listingType entry = known_and_provider_scope entry.
Proof.
  unfold unrestricted, picked, known_and_provider_scope, isTargetProcessAlias.
  destruct (includeForListingTypes _); simpl; [| |done];
    intros _; by rewrite andb_true_r.
Qed.

(** X6. The fields of a concatenated configuration list are the fields of
    its first part followed by the fields of its second part. *)
Theorem AddCustomExtendedDataFields_app (listingType : jsval) (intl : Intl)
    (first second : list (nullable ExtendedDataConfig)) :
  node_children
    (AddCustomExtendedDataFields listingType (Def (first ++ second)) intl)
  = node_children (AddCustomExtendedDataFields listingType (Def first) intl)
    ++ node_children (AddCustomExtendedDataFields listingType (Def second) intl).
Proof.
  unfold AddCustomExtendedDataFields. cbn [node_children].
  rewrite !custom_fields_filter. cbn [or_else].
  by rewrite List.filter_app, map_app.
Qed.

(** X7. When no entry of the list restricts the listing types it is for, the
    same fields are rendered whatever the listing type is. *)
Theorem AddCustomExtendedDataFields_unrestricted (first second : jsval)
    (config : list (nullable ExtendedDataConfig)) (intl : Intl) :
  (∀ entry, entry ∈ config → unrestricted entry = true) →
  AddCustomExtendedDataFields first (Def config) intl
  = AddCustomExtendedDataFields second (Def config) intl.
Proof.
  intros Hall. unfold AddCustomExtendedDataFields.
  rewrite !custom_fields_filter. cbn [or_else]. do 2 f_equal.
  apply filter_ext_elem. intros e He.
  by rewrite !picked_unrestricted by by apply Hall.
Qed.


(** X9. Every field that is rendered comes from a configuration of the
    list: it carries that configuration as [fieldConfig], is named and keyed
    by its key, and the configuration is of a known schema type and of
    public or private scope. *)
Theorem AddCustomExtendedDataFields_sound (listingType : jsval)
    (listingExtendedDataConfig : nullable (list (nullable ExtendedDataConfig)))
    (intl : Intl) (field : node) :
  field ∈ subtrees
            (AddCustomExtendedDataFields listingType listingExtendedDataConfig intl) →
  ∃ c, Def c ∈ or_else listingExtendedDataConfig []
    ∧ node_type field = Some CustomExtendedDataField
    ∧ get_prop "fieldConfig" (node_props field) = Some (PFieldConfig (Def c))
    ∧ get_prop "name" (node_props field) = Some (PVal (key c))
    ∧ get_prop "key" (node_props field) = Some (PVal (key c))
    ∧ (∃ t, t ∈ EXTENDED_DATA_SCHEMA_TYPES ∧ schemaType c = VStr t)
    ∧ (scope c = VStr "public" ∨ scope c = VStr "private").
Proof.
  unfold AddCustomExtendedDataFields. rewrite custom_fields_filter.
  cbn [subtrees]. intros Hin.
  apply list_elem_of_In, in_flat_map in Hin as (child & Hchild & Hfield).
  apply in_map_iff in Hchild as (entry & <- & Hentry).
  apply filter_In in Hentry as [Hentry Hpicked].
  apply picked_spec in Hpicked as (c & -> & Hknown & _ & Hscope).
  simpl in Hfield. destruct Hfield as [<-|[]].
  exists c. split; [by apply list_elem_of_In|]. by repeat split.
Qed.

(* --------------------------------------------------------------------- *)
(** *** Further properties of the rendered trees                          *)
(* --------------------------------------------------------------------- *)

(** The [name] props of a tree, in document order. *)
Definition field_names (n : node) : list prop :=
  omap (fun e => get_prop "name" (node_props e)) (subtrees n).

(** The trees whose elements all have one of the given types. *)
Definition only_types (ts : list elem_type) (n : node) : bool :=
  forallb (fun e => existsb (fun t => has_type t e) ts) (subtrees n).

(** The select of the first branch of [FieldSelectListingType]. *)
Definition listing_type_select (name : string) (l : list ListingTypeConfig)
    (onProcessChange : nullable extfn) (intl : Intl) : node :=
  Element FieldSelect
    [("id", PVal (VStr name));
     ("name", PVal (VStr name));
     ("className", PVal (css "listingTypeSelect"));
     ("label", PVal (VStr (formatMessage intl
                  "EditListingDetailsForm.listingTypeLabel" [])));
     ("validate", PValidate (required (formatMessage intl
                  "EditListingDetailsForm.listingTypeRequired" [])));
     ("onChange", POnChange
        {| closure_listingTypes := Def l;
           closure_onProcessChange := onProcessChange |})]
    (Element (Tag "option")
       [("disabled", PVal (VBool true)); ("value", PVal (VStr ""))]
       [Text (VStr (formatMessage intl
                "EditListingDetailsForm.listingTypePlaceholder" []))]
     :: map listing_type_option l).

(** The three elements [render] writes out itself. *)
Definition title_input (rp : FormRenderProps) : node :=
  Element FieldTextInput
    [("id", PVal (VStr "title"));
     ("name", PVal (VStr "title"));
     ("className", PVal (css "title"));
     ("type", PVal (VStr "text"));
     ("label", PVal (VStr (formatMessage (intl rp)
                  "EditListingDetailsForm.title" [])));
     ("placeholder", PVal (VStr (formatMessage (intl rp)
                  "EditListingDetailsForm.titlePlaceholder" [])));
     ("maxLength", PVal (VNum TITLE_MAX_LENGTH));
     ("validate", PValidate
        (composeValidators
           [required (formatMessage (intl rp)
                        "EditListingDetailsForm.titleRequired" []);
            maxLength (formatMessage (intl rp)
                         "EditListingDetailsForm.maxLength"
                         [("maxLength", VNum TITLE_MAX_LENGTH)])
              TITLE_MAX_LENGTH]));
     ("autoFocus", PVal (autoFocus rp))]
    [].

Definition description_input (rp : FormRenderProps) : node :=
  Element FieldTextInput
    [("id", PVal (VStr "description"));
     ("name", PVal (VStr "description"));
     ("className", PVal (css "description"));
     ("type", PVal (VStr "textarea"));
     ("label", PVal (VStr (formatMessage (intl rp)
                  "EditListingDetailsForm.description" [])));
     ("placeholder", PVal (VStr (formatMessage (intl rp)
                  "EditListingDetailsForm.descriptionPlaceholder" [])));
     ("validate", PValidate (required (formatMessage (intl rp)
                  "EditListingDetailsForm.descriptionRequired" [])))]
    [].

Definition submit_button (rp : FormRenderProps) : node :=
  Element Button
    [("className", PVal (css "submitButton"));
     ("type", PVal (VStr "submit"));
     ("inProgress", PVal (VBool (updateInProgress rp)));
     ("disabled", PVal (VBool (invalid rp || disabled rp || updateInProgress rp)));
     ("ready", PVal (VBool ((updated rp && pristine rp) || ready rp)))]
    [Text (VStr (saveActionMsg rp))].

(** The listing type the custom fields are chosen for: [values.listingType]. *)
Definition current_listingType (rp : FormRenderProps) : jsval :=
  default VUndefined (values rp !! "listingType").

Lemma subtrees_render (rp : FormRenderProps) :
  subtrees (render rp)
  = render rp
    :: subtrees (ErrorMessage (fetchErrors rp))
    ++ title_input rp
    :: description_input rp
    :: subtrees (FieldSelectListingType "listingType"
                   (selectableListingTypes rp) (hasExistingListingType rp)
                   (onProcessChange rp) (form rp) (intl rp))
    ++ subtrees (AddCustomExtendedDataFields (current_listingType rp)
                   (listingExtendedDataConfig rp) (intl rp))
    ++ [submit_button rp].
Proof. reflexivity. Qed.

Lemma FieldSelectListingType_select_shape (name : string)
    (l : list ListingTypeConfig) (onProcessChange : nullable extfn)
    (formApi : gmap string jsval) (intl : Intl) :
  (1 < length l)%nat →
  FieldSelectListingType name (Def l) false onProcessChange formApi intl
  = Fragment [listing_type_select name l onProcessChange intl;
              FieldHidden "transactionProcessAlias";
              FieldHidden "unitType"].
Proof. intros Hl. by rewrite FieldSelectListingType_select. Qed.

Lemma subtrees_options (l : list ListingTypeConfig) :
  flat_map subtrees (map listing_type_option l) = map listing_type_option l.
Proof.
  induction l as [|c l IH]; [done|].
  cbn [map flat_map]. by rewrite IH, listing_type_option_subtrees.
Qed.

Lemma subtrees_custom_fields (intl : Intl) (l : list (nullable ExtendedDataConfig)) :
  flat_map subtrees (map (custom_field intl) l) = map (custom_field intl) l.
Proof.
  induction l as [|c l IH]; [done|].
  cbn [map flat_map]. by rewrite IH.
Qed.

Lemma subtrees_select (name : string) (l : list ListingTypeConfig)
    (onProcessChange : nullable extfn) (intl : Intl) :
  subtrees (listing_type_select name l onProcessChange intl)
  = listing_type_select name l onProcessChange intl
    :: Element (Tag "option")
         [("disabled", PVal (VBool true)); ("value", PVal (VStr ""))]
         [Text (VStr (formatMessage intl
                  "EditListingDetailsForm.listingTypePlaceholder" []))]
    :: map listing_type_option l.
Proof.
  unfold listing_type_select. cbn [subtrees flat_map app].
  by rewrite subtrees_options.
Qed.

Lemma omap_none {A B : Type} (f : A → option B) (l : list A) :
  (∀ x, x ∈ l → f x = None) → omap f l = [].
Proof.
  induction l as [|x l IH]; intros H; [done|].
  cbn [omap list_omap]. rewrite (H x) by apply list_elem_of_here.
  apply IH. intros y Hy. apply H. by apply list_elem_of_further.
Qed.

Lemma field_names_options (l : list ListingTypeConfig) :
  omap (fun e => get_prop "name" (node_props e)) (map listing_type_option l) = [].
Proof.
  apply omap_none. intros e He.
  apply list_elem_of_In, in_map_iff in He as (c & <- & _). reflexivity.
Qed.

Lemma field_names_ErrorMessage (fetchErrors : nullable FetchErrors) :
  field_names (ErrorMessage fetchErrors) = [].
Proof.
  destruct (ErrorMessage_cases fetchErrors) as [H|[H|[H|H]]];
    rewrite H; reflexivity.
Qed.

Lemma field_names_FieldSelectListingType (name : string)
    (listingTypes : nullable (list ListingTypeConfig))
    (hasExistingListingType : bool) (onProcessChange : nullable extfn)
    (formApi : gmap string jsval) (intl : Intl) :
  field_names (FieldSelectListingType name listingTypes hasExistingListingType
                 onProcessChange formApi intl)
  = [PVal (VStr name);
     PVal (VStr "transactionProcessAlias");
     PVal (VStr "unitType")].
Proof.
  destruct (FieldSelectListingType_branch listingTypes hasExistingListingType)
    as [(l & -> & Hl & ->)|[(l & -> & Hl & ->)|Hl]].
  - rewrite FieldSelectListingType_select_shape by done.
    unfold field_names. cbn [subtrees flat_map].
    rewrite subtrees_select, !FieldHidden_subtrees.
    cbn [app].
    match goal with
    | |- omap ?f (?a :: ?b :: ?rest) = _ =>
        change (omap f ([a; b] ++ rest) = [PVal (VStr name);
                  PVal (VStr "transactionProcessAlias"); PVal (VStr "unitType")])
    end.
    rewrite !omap_app, field_names_options. reflexivity.
  - rewrite FieldSelectListingType_readonly by done. reflexivity.
  - rewrite FieldSelectListingType_hidden by done. reflexivity.
Qed.

(** X10. In each of its three branches [FieldSelectListingType] names the
    same three form fields, in the same order: the listing type (by the
    select or by a hidden field), [transactionProcessAlias] and [unitType];
    nothing else in its tree carries a name. *)
Theorem FieldSelectListingType_field_names (name : string)
    (listingTypes : nullable (list ListingTypeConfig))
    (hasExistingListingType : bool) (onProcessChange : nullable extfn)
    (formApi : gmap string jsval) (intl : Intl) :
  field_names (FieldSelectListingType name listingTypes hasExistingListingType
                 onProcessChange formApi intl)
  = [PVal (VStr name);
     PVal (VStr "transactionProcessAlias");
     PVal (VStr "unitType")]
  ∧ length (List.filter (has_prop "name")
              (subtrees (FieldSelectListingType name listingTypes
                           hasExistingListingType onProcessChange formApi intl)))
    = 3%nat.
Proof.
  pose proof (field_names_FieldSelectListingType name listingTypes
                hasExistingListingType onProcessChange formApi intl) as Hnames.
  split; [exact Hnames|].
  apply (f_equal length) in Hnames. cbn [length] in Hnames.
  rewrite <- Hnames. unfold field_names, has_prop.
  generalize (subtrees (FieldSelectListingType name listingTypes
                          hasExistingListingType onProcessChange formApi intl)).
  intros l. induction l as [|e l IH]; [done|].
  cbn [List.filter omap list_omap].
  destruct (get_prop "name" (node_props e)); cbn [length]; by rewrite IH.
Qed.

Lemma field_names_custom_fields (intl : Intl)
    (l : list (nullable ExtendedDataConfig)) :
  omap (fun e => get_prop "name" (node_props e)) (map (custom_field intl) l)
  = map (fun entry => PVal (key (or_else entry empty_object))) l.
Proof.
  induction l as [|c l IH]; [done|].
  cbn [map omap list_omap]. simpl get_prop. by rewrite <- IH.
Qed.

Lemma field_names_AddCustomExtendedDataFields (listingType : jsval)
    (config : nullable (list (nullable ExtendedDataConfig))) (intl : Intl) :
  field_names (AddCustomExtendedDataFields listingType config intl)
  = map (fun entry => PVal (key (or_else entry empty_object)))
      (List.filter (picked listingType) (or_else config [])).
Proof.
  unfold field_names, AddCustomExtendedDataFields.
  rewrite custom_fields_filter. cbn [subtrees].
  by rewrite subtrees_custom_fields, field_names_custom_fields.
Qed.

(** X11. The form names its fields in a fixed order: title, description,
    listingType, transactionProcessAlias, unitType, and then one field per
    configuration entry that gets a custom field for the current listing
    type, named by the key of the entry. *)
Theorem render_field_names (rp : FormRenderProps) :
  field_names (render rp)
  = [PVal (VStr "title"); PVal (VStr "description");
     PVal (VStr "listingType"); PVal (VStr "transactionProcessAlias");
     PVal (VStr "unitType")]
    ++ ((fun entry => PVal (key (or_else entry empty_object)))
          <$> filter (renders_field (current_listingType rp))
                (or_else (listingExtendedDataConfig rp) [])).
Proof.
  rewrite filter_renders_field.
  rewrite <- field_names_AddCustomExtendedDataFields with (intl := intl rp).
  unfold field_names at 1. rewrite subtrees_render.
  change (render rp :: ?l) with ([render rp] ++ l).
  rewrite omap_app.
  change (omap _ [render rp]) with (@nil prop). cbn [app].
  rewrite omap_app. fold (field_names (ErrorMessage (fetchErrors rp))).
  rewrite field_names_ErrorMessage. cbn [app].
  change (title_input rp :: description_input rp :: ?l)
    with ([title_input rp; description_input rp] ++ l).
  rewrite !omap_app.
  fold (field_names (FieldSelectListingType "listingType"
                       (selectableListingTypes rp) (hasExistingListingType rp)
                       (onProcessChange rp) (form rp) (intl rp))).
  rewrite field_names_FieldSelectListingType.
  fold (field_names (AddCustomExtendedDataFields (current_listingType rp)
                       (listingExtendedDataConfig rp) (intl rp))).
  change (omap _ [submit_button rp]) with (@nil prop).
  rewrite app_nil_r. reflexivity.
Qed.

Lemma elements_of_other_type (t : elem_type) (ts : list elem_type) (n : node) :
  only_types ts n = true →
  existsb (fun t' => bool_decide (t' = t)) ts = false →
  elements_of t n = [].
Proof.
  intros Honly Hnot. unfold elements_of.
  apply (filter_forallb_false (has_type t)
           (fun e => existsb (fun t' => has_type t' e) ts)); [|exact Honly].
  intros e He. destruct (has_type t e) eqn:Ht; [|done].
  apply existsb_exists in He as (t' & Hin & Ht').
  unfold has_type in Ht, Ht'.
  apply bool_decide_eq_true in Ht. apply bool_decide_eq_true in Ht'.
  assert (t' = t) as -> by congruence.
  assert (existsb (fun t' => bool_decide (t' = t)) ts = true); [|congruence].
  apply existsb_exists. exists t. split; [done|]. by apply bool_decide_eq_true.
Qed.

Lemma ErrorMessage_only_types (fetchErrors : nullable FetchErrors) :
  only_types [Tag "p"; FormattedMessage] (ErrorMessage fetchErrors) = true.
Proof.
  destruct (ErrorMessage_cases fetchErrors) as [H|[H|[H|H]]];
    rewrite H; reflexivity.
Qed.

Lemma FieldSelectListingType_only_types (name : string)
    (listingTypes : nullable (list ListingTypeConfig))
    (hasExistingListingType : bool) (onProcessChange : nullable extfn)
    (formApi : gmap string jsval) (intl : Intl) :
  only_types [FieldSelect; Tag "option"; Field; Tag "div"; Heading; Tag "p"]
    (FieldSelectListingType name listingTypes hasExistingListingType
       onProcessChange formApi intl) = true.
Proof.
  destruct (FieldSelectListingType_branch listingTypes hasExistingListingType)
    as [(l & -> & Hl & ->)|[(l & -> & Hl & ->)|Hl]].
  - rewrite FieldSelectListingType_select_shape by done.
    unfold only_types. cbn [subtrees flat_map].
    rewrite subtrees_select, !FieldHidden_subtrees. cbn [app].
    apply forallb_forall. intros e [<-|[<-|Hin]]; [reflexivity..|].
    apply in_app_or in Hin as [Hin|Hin].
    + apply in_map_iff in Hin as (c & <- & _). reflexivity.
    + destruct Hin as [<-|[<-|[]]]; reflexivity.
  - rewrite FieldSelectListingType_readonly by done. reflexivity.
  - rewrite FieldSelectListingType_hidden by done. reflexivity.
Qed.

Lemma AddCustomExtendedDataFields_only_types (listingType : jsval)
    (config : nullable (list (nullable ExtendedDataConfig))) (intl : Intl) :
  only_types [CustomExtendedDataField]
    (AddCustomExtendedDataFields listingType config intl) = true.
Proof.
  unfold only_types, AddCustomExtendedDataFields.
  rewrite custom_fields_filter. cbn [subtrees].
  rewrite subtrees_custom_fields. apply forallb_forall. intros e Hin.
  apply in_map_iff in Hin as (c & <- & _). reflexivity.
Qed.

Lemma elements_of_render (t : elem_type) (rp : FormRenderProps) :
  elements_of t (render rp)
  = List.filter (has_type t) [render rp]
    ++ elements_of t (ErrorMessage (fetchErrors rp))
    ++ List.filter (has_type t) [title_input rp; description_input rp]
    ++ elements_of t (FieldSelectListingType "listingType"
                        (selectableListingTypes rp) (hasExistingListingType rp)
                        (onProcessChange rp) (form rp) (intl rp))
    ++ elements_of t (AddCustomExtendedDataFields (current_listingType rp)
                        (listingExtendedDataConfig rp) (intl rp))
    ++ List.filter (has_type t) [submit_button rp].
Proof.
  unfold elements_of. rewrite subtrees_render.
  change (render rp :: ?l) with ([render rp] ++ l).
  rewrite List.filter_app. f_equal.
  rewrite List.filter_app. f_equal.
  change (title_input rp :: description_input rp :: ?l)
    with ([title_input rp; description_input rp] ++ l).
  rewrite !List.filter_app. cbn [List.filter]. by rewrite app_nil_r.
Qed.

(** X12. The form has one button, the last element of its tree, of type
    submit.  It is disabled exactly when the form is invalid, disabled or an
    update is in progress; it shows progress exactly while an update is in
    progress; and it is marked ready exactly when the form was updated and is
    pristine, or is ready. *)
Theorem render_submit_button (rp : FormRenderProps) :
  ∃ button,
    elements_of Button (render rp) = [button]
    ∧ last (subtrees (render rp)) = Some button
    ∧ get_prop "type" (node_props button) = Some (PVal (VStr "submit"))
    ∧ (get_prop "disabled" (node_props button) = Some (PVal (VBool true))
       ↔ invalid rp = true ∨ disabled rp = true ∨ updateInProgress rp = true)
    ∧ get_prop "inProgress" (node_props button)
      = Some (PVal (VBool (updateInProgress rp)))
    ∧ (get_prop "ready" (node_props button) = Some (PVal (VBool true))
       ↔ (updated rp = true ∧ pristine rp = true) ∨ ready rp = true).
Proof.
  exists (submit_button rp). split; [|split; [|split; [|split; [|split]]]].
  - rewrite elements_of_render.
    rewrite (elements_of_other_type Button _ _ (ErrorMessage_only_types _))
      by reflexivity.
    rewrite (elements_of_other_type Button _ _
               (FieldSelectListingType_only_types _ _ _ _ _ _)) by reflexivity.
    rewrite (elements_of_other_type Button _ _
               (AddCustomExtendedDataFields_only_types _ _ _)) by reflexivity.
    reflexivity.
  - rewrite subtrees_render.
    change (render rp :: ?l) with ([render rp] ++ l).
    change (title_input rp :: description_input rp :: ?l)
      with ([title_input rp; description_input rp] ++ l).
    rewrite !app_assoc. apply last_snoc.
  - reflexivity.
  - simpl. split.
    + intros [= H]. rewrite !orb_true_iff in H. tauto.
    + intros H. do 2 f_equal. f_equal. rewrite !orb_true_iff. tauto.
  - reflexivity.
  - simpl. split.
    + intros [= H]. rewrite orb_true_iff, andb_true_iff in H. tauto.
    + intros H. do 2 f_equal. f_equal. rewrite orb_true_iff, andb_true_iff. tauto.
Qed.

Lemma elements_of_custom_fields (intl : Intl)
    (l : list (nullable ExtendedDataConfig)) :
  List.filter (has_type CustomExtendedDataField) (map (custom_field intl) l)
  = map (custom_field intl) l.
Proof.
  induction l as [|c l IH]; [done|].
  cbn [map]. cbn [List.filter].
  change (has_type CustomExtendedDataField (custom_field intl c)) with true.
  cbn iota. by rewrite IH.
Qed.

(** X13. The custom fields of the rendered form are those of
    [AddCustomExtendedDataFields] for the value the form holds for
    [listingType] (undefined when it holds none) and for the configuration
    list of the props; no other part of the form renders one. *)
Theorem render_custom_fields (rp : FormRenderProps) :
  elements_of CustomExtendedDataField (render rp)
  = custom_field (intl rp)
      <$> filter (renders_field (default VUndefined (values rp !! "listingType")))
            (or_else (listingExtendedDataConfig rp) []).
Proof.
  rewrite elements_of_render.
  rewrite (elements_of_other_type CustomExtendedDataField _ _
             (ErrorMessage_only_types _)) by reflexivity.
  rewrite (elements_of_other_type CustomExtendedDataField _ _
             (FieldSelectListingType_only_types _ _ _ _ _ _)) by reflexivity.
  change (List.filter _ [render rp]) with (@nil node).
  change (List.filter _ [title_input rp; description_input rp]) with (@nil node).
  change (List.filter _ [submit_button rp]) with (@nil node).
  cbn [app]. rewrite app_nil_r.
  unfold elements_of, AddCustomExtendedDataFields.
  rewrite custom_fields_filter. cbn [subtrees].
  rewrite subtrees_custom_fields, elements_of_custom_fields.
  by rewrite filter_renders_field.
Qed.

Lemma elements_of_select_branch (name : string) (l : list ListingTypeConfig)
    (onProcessChange : nullable extfn) (formApi : gmap string jsval)
    (intl : Intl) :
  (1 < length l)%nat →
  elements_of FieldSelect
    (FieldSelectListingType name (Def l) false onProcessChange formApi intl)
  = [listing_type_select name l onProcessChange intl].
Proof.
  intros Hl. rewrite FieldSelectListingType_select_shape by done.
  unfold elements_of. cbn [subtrees flat_map].
  rewrite subtrees_select, !FieldHidden_subtrees. cbn [app].
  change (listing_type_select name l onProcessChange intl :: ?x :: ?rest)
    with ([listing_type_select name l onProcessChange intl; x] ++ rest).
  rewrite !List.filter_app.
  assert (Hopts : List.filter (has_type FieldSelect) (map listing_type_option l)
                  = []).
  { clear Hl. induction l as [|c l IH]; [done|]. cbn [map List.filter].
    change (has_type FieldSelect (listing_type_option c)) with false.
    by cbn iota. }
  rewrite Hopts. reflexivity.
Qed.

(** X14. The lookup of the change handler cannot fail for an option the
    select offers.  The handler installed on a rendered select holds the
    listing types and the callback of the props; for the value of any keyed
    option of that select, [find] yields a configuration of the list, the
    first of that listing type.  Whatever the callback does, both fields are
    written with the alias and the unit type of that configuration before the
    callback runs, so a throw can only come from the callback; with a
    callback that returns, the handler returns. *)
Theorem rendered_option_is_selectable (name : string)
    (listingTypes : nullable (list ListingTypeConfig))
    (hasExistingListingType : bool) (onProcessChange : nullable extfn)
    (formApi : gmap string jsval) (intl : Intl)
    (select option : node) (h : OnChangeClosure) (value : jsval) (w : World) :
  select ∈ elements_of FieldSelect
             (FieldSelectListingType name listingTypes hasExistingListingType
                onProcessChange formApi intl) →
  get_prop "onChange" (node_props select) = Some (POnChange h) →
  option ∈ node_children select →
  get_prop "key" (node_props option) = Some (PVal value) →
  ∃ configs sel,
    listingTypes = Def configs
    ∧ closure_listingTypes h = listingTypes
    ∧ closure_onProcessChange h = onProcessChange
    ∧ sel ∈ configs
    ∧ listingType sel = value
    ∧ selected_config configs value = Some sel
    ∧ (∀ run, run_onChange_with run h value w
              = match callback_due onProcessChange sel w with
                | Some callback =>
                    run callback [transactionProcessAlias sel]
                      {| formValues :=
                           <["unitType" := unitType sel]>
                             (<["transactionProcessAlias" :=
                                  transactionProcessAlias sel]> (formValues w));
                         calls :=
                           calls w
                           ++ [(callback, [transactionProcessAlias sel])] |}
                | None =>
                    (Returned tt,
                     {| formValues :=
                          <["unitType" := unitType sel]>
                            (<["transactionProcessAlias" :=
                                 transactionProcessAlias sel]> (formValues w));
                        calls := calls w |})
                end)
    ∧ ∃ w', run_onChange h value w = (Returned tt, w')
        ∧ formValues w' !! "transactionProcessAlias"
          = Some (transactionProcessAlias sel)
        ∧ formValues w' !! "unitType" = Some (unitType sel).
Proof.
  intros Hselect HonChange Hoption Hkey.
  destruct (FieldSelectListingType_branch listingTypes hasExistingListingType)
    as [(l & -> & Hl & ->)|[(l & -> & Hl & ->)|Hl]].
  - rewrite elements_of_select_branch in Hselect by done.
    apply list_elem_of_singleton in Hselect as ->.
    cbn in HonChange. injection HonChange as <-.
    cbn [listing_type_select node_children] in Hoption.
    apply elem_of_cons in Hoption as [->|Hoption]; [discriminate Hkey|].
    apply list_elem_of_In, in_map_iff in Hoption as (c & <- & Hc).
    cbn in Hkey. injection Hkey as <-.
    destruct (proj2 (selected_config_Some_iff l (listingType c))) as [sel Hsel].
    { exists c. split; [by apply list_elem_of_In|done]. }
    pose proof (find_Some_elem _ _ _ Hsel) as [Hin Hp].
    apply bool_decide_eq_true in Hp.
    exists l, sel. do 5 (split; [done|]). split; [|split].
    + done.
    + intros run. unfold run_onChange_with. cbn [closure_listingTypes
        closure_onProcessChange].
      rewrite (handleOnChange_with_found _ _ _ _ sel) by done.
      by destruct (callback_due onProcessChange sel w).
    + exists (world_after sel onProcessChange w).
      split; [by apply handleOnChange_found|].
      unfold world_after. simpl. split.
      * rewrite lookup_insert_ne by done. by rewrite lookup_insert_eq.
      * by rewrite lookup_insert_eq.
  - rewrite FieldSelectListingType_readonly in Hselect by done.
    by apply elem_of_nil in Hselect.
  - rewrite FieldSelectListingType_hidden in Hselect by done.
    by apply elem_of_nil in Hselect.
Qed.


End Details.

(* ===================================================================== *)
(** ** The statements at the sample props                                 *)
(* ===================================================================== *)

(** Selecting product selling while a daily booking is edited: the process
    alias changes, and the callback is called with the new alias. *)
Lemma handleOnChange_invokes_callback_sample :
  selected_config Samples.listingTypes (VStr "product-selling")
  = Some Samples.selling
  ∧ ∃ w', handleOnChange (Def Samples.listingTypes) (Def Samples.onProcessChange)
            (VStr "product-selling") Samples.world = (Returned tt, w')
      ∧ calls w' = [(Samples.onProcessChange, [VStr "default-purchase/release-1"])].
Proof.
  split; [reflexivity|].
  destruct (handleOnChange_invokes_callback Samples.listingTypes
              (Def Samples.onProcessChange) (VStr "product-selling")
              Samples.selling Samples.world eq_refl)
    as (w' & Hrun & _ & Hcall & _).
  exists w'. split; [exact Hrun|].
  apply (Hcall Samples.onProcessChange eq_refl).
  vm_compute. discriminate.
Defined.

(** The same selection leaves title and description as they were. *)
Lemma handleOnChange_sets_two_fields_sample :
  selected_config Samples.listingTypes (VStr "product-selling")
  = Some Samples.selling
  ∧ ∃ w', handleOnChange (Def Samples.listingTypes) (Def Samples.onProcessChange)
            (VStr "product-selling") Samples.world = (Returned tt, w')
      ∧ formValues w' !! "transactionProcessAlias"
        = Some (VStr "default-purchase/release-1")
      ∧ formValues w' !! "unitType" = Some (VStr "item")
      ∧ formValues w' !! "title" = Some (VStr "Sauna")
      ∧ formValues w' !! "description" = Some (VStr "By the lake").
Proof.
  split; [reflexivity|].
  destruct (handleOnChange_sets_two_fields Samples.listingTypes
              (Def Samples.onProcessChange) (VStr "product-selling")
              Samples.selling Samples.world eq_refl)
    as (w' & Hrun & Halias & Hunit & _ & Htitle & Hdescription).
  exists w'. split; [exact Hrun|].
  split; [exact Halias|]. split; [exact Hunit|].
  split; [rewrite Htitle|rewrite Hdescription]; reflexivity.
Defined.

(** Going from daily to nightly booking changes the unit type only: no call. *)
Example handleOnChange_same_process :
  handleOnChange (Def Samples.listingTypes) (Def Samples.onProcessChange)
    (VStr "nightly-booking") Samples.world
  = (Returned tt,
     {| formValues :=
          <["unitType" := VStr "night"]>
            (<["transactionProcessAlias" := VStr "default-booking/release-1"]>
               (formValues Samples.world));
        calls := [] |}).
Proof. reflexivity. Qed.

(** A value that is no listing type makes the handler throw and leaves the
    form as it was. *)
Example handleOnChange_unknown_value :
  handleOnChange (Def Samples.listingTypes) (Def Samples.onProcessChange)
    (VStr "rental") Samples.world
  = (Thrown (CannotRead VUndefined "transactionProcessAlias"), Samples.world).
Proof. reflexivity. Qed.

(** For a daily booking, the category and the note get a field, in that
    order; the scope, the listing types and the schema type rule out the
    others, and the two empty entries are skipped. *)
Example AddCustomExtendedDataFields_sample :
  AddCustomExtendedDataFields Samples.EXTENDED_DATA_SCHEMA_TYPES
    (VStr "daily-booking") (Def Samples.extendedData) Samples.intl
  = Fragment [custom_field Samples.intl (Def Samples.category);
              custom_field Samples.intl (Def Samples.internal_note)].
Proof. reflexivity. Qed.

(** The update error wins over the draft error. *)
Example ErrorMessage_update_first :
  ErrorMessage Samples.css
    (Def {| updateListingError := VRef 1;
            createListingDraftError := VRef 2;
            showListingsError := VNull |})
  = error_paragraph Samples.css "EditListingDetailsForm.updateFailed".
Proof. reflexivity. Qed.

Example ErrorMessage_show_last :
  ErrorMessage Samples.css
    (Def {| updateListingError := VNull;
            createListingDraftError := VUndefined;
            showListingsError := VRef 3 |})
  = error_paragraph Samples.css "EditListingDetailsForm.showListingFailed".
Proof. reflexivity. Qed.

(** Three listing types and no existing one: a select of four options. *)
Example FieldSelectListingType_sample_select :
  map (fun e => length (node_children e))
    (elements_of FieldSelect
       (FieldSelectListingType Samples.css "listingType" (Def Samples.listingTypes)
          false (Def Samples.onProcessChange) (formValues Samples.world)
          Samples.intl))
  = [4%nat].
Proof. reflexivity. Qed.

(** A single listing type: three hidden fields. *)
Example FieldSelectListingType_sample_single :
  FieldSelectListingType Samples.css "listingType" (Def [Samples.daily])
    false Undefined (formValues Samples.world) Samples.intl
  = Fragment [FieldHidden Samples.css "listingType";
              FieldHidden Samples.css "transactionProcessAlias";
              FieldHidden Samples.css "unitType"].
Proof. reflexivity. Qed.




(** Two configurations of the same listing type: the first one is stored. *)
Lemma handleOnChange_first_match_sample :
  (∀ c, c ∈ [Samples.daily] → listingType c ≠ listingType Samples.nightly)
  ∧ ∃ w', handleOnChange
            (Def ([Samples.daily] ++ Samples.nightly
                  :: [{| listingType := VStr "nightly-booking";
                         label := VStr "Nightly, by the hour";
                         transactionProcessAlias := VStr "default-booking/release-2";
                         unitType := VStr "hour" |}]))
            (Def Samples.onProcessChange) (VStr "nightly-booking") Samples.world
          = (Returned tt, w')
      ∧ formValues w' !! "transactionProcessAlias"
        = Some (VStr "default-booking/release-1")
      ∧ formValues w' !! "unitType" = Some (VStr "night").
Proof.
  assert (Hbefore : ∀ c, c ∈ [Samples.daily]
                         → listingType c ≠ listingType Samples.nightly).
  { intros c Hc. apply list_elem_of_singleton in Hc as ->. discriminate. }
  split; [exact Hbefore|].
  exact (handleOnChange_first_match [Samples.daily] _ Samples.nightly
           (Def Samples.onProcessChange) Samples.world Hbefore).
Defined.

(** The note, the rating and the location are for every listing type. *)
Lemma AddCustomExtendedDataFields_unrestricted_sample :
  (∀ entry, entry ∈ [Def Samples.internal_note; Def Samples.rating;
                     Null; Def Samples.location] →
     unrestricted entry = true)
  ∧ AddCustomExtendedDataFields Samples.EXTENDED_DATA_SCHEMA_TYPES
      (VStr "daily-booking")
      (Def [Def Samples.internal_note; Def Samples.rating;
            Null; Def Samples.location]) Samples.intl
    = AddCustomExtendedDataFields Samples.EXTENDED_DATA_SCHEMA_TYPES
        (VStr "product-selling")
        (Def [Def Samples.internal_note; Def Samples.rating;
              Null; Def Samples.location]) Samples.intl.
Proof.
  assert (Hall : ∀ entry, entry ∈ [Def Samples.internal_note; Def Samples.rating;
                                   Null; Def Samples.location] →
                          unrestricted entry = true).
  { intros entry Hin.
    repeat (apply elem_of_cons in Hin as [->|Hin]; [reflexivity|]).
    by apply elem_of_nil in Hin. }
  split; [exact Hall|].
  exact (AddCustomExtendedDataFields_unrestricted
           Samples.EXTENDED_DATA_SCHEMA_TYPES _ _ _ Samples.intl Hall).
Defined.


(** The category field of a daily booking, seen from the rendered tree. *)
Lemma AddCustomExtendedDataFields_sound_sample :
  custom_field Samples.intl (Def Samples.category)
  ∈ subtrees (AddCustomExtendedDataFields Samples.EXTENDED_DATA_SCHEMA_TYPES
                (VStr "daily-booking") (Def Samples.extendedData) Samples.intl)
  ∧ ∃ c, Def c ∈ Samples.extendedData
      ∧ get_prop "name" (node_props (custom_field Samples.intl (Def Samples.category)))
        = Some (PVal (key c))
      ∧ (scope c = VStr "public" ∨ scope c = VStr "private").
Proof.
  assert (Hin : custom_field Samples.intl (Def Samples.category)
                ∈ subtrees (AddCustomExtendedDataFields
                              Samples.EXTENDED_DATA_SCHEMA_TYPES
                              (VStr "daily-booking") (Def Samples.extendedData)
                              Samples.intl)).
  { apply list_elem_of_here. }
  split; [exact Hin|].
  destruct (AddCustomExtendedDataFields_sound Samples.EXTENDED_DATA_SCHEMA_TYPES
              _ _ _ _ Hin)
    as (c & Hc & _ & _ & Hname & _ & _ & Hscope).
  exists c. split; [exact Hc|]. split; [exact Hname|exact Hscope].
Defined.

(** Choosing the nightly option of the rendered select. *)
Lemma rendered_option_is_selectable_sample :
  listing_type_select Samples.css "listingType" Samples.listingTypes
    (Def Samples.onProcessChange) Samples.intl
  ∈ elements_of FieldSelect
      (FieldSelectListingType Samples.css "listingType" (Def Samples.listingTypes)
         false (Def Samples.onProcessChange) (formValues Samples.world)
         Samples.intl)
  ∧ listing_type_option Samples.nightly
    ∈ node_children
        (listing_type_select Samples.css "listingType" Samples.listingTypes
           (Def Samples.onProcessChange) Samples.intl)
  ∧ selected_config Samples.listingTypes (VStr "nightly-booking")
    = Some Samples.nightly
  ∧ ∃ w', run_onChange
            {| closure_listingTypes := Def Samples.listingTypes;
               closure_onProcessChange := Def Samples.onProcessChange |}
            (VStr "nightly-booking") Samples.world = (Returned tt, w')
      ∧ formValues w' !! "unitType" = Some (VStr "night").
Proof.
  assert (Hselect :
    listing_type_select Samples.css "listingType" Samples.listingTypes
      (Def Samples.onProcessChange) Samples.intl
    ∈ elements_of FieldSelect
        (FieldSelectListingType Samples.css "listingType"
           (Def Samples.listingTypes) false (Def Samples.onProcessChange)
           (formValues Samples.world) Samples.intl)).
  { apply list_elem_of_here. }
  assert (Hoption :
    listing_type_option Samples.nightly
    ∈ node_children
        (listing_type_select Samples.css "listingType" Samples.listingTypes
           (Def Samples.onProcessChange) Samples.intl)).
  { do 2 apply list_elem_of_further. apply list_elem_of_here. }
  split; [exact Hselect|]. split; [exact Hoption|].
  destruct (rendered_option_is_selectable Samples.css "listingType" _ _ _ _ _ _ _ _
              (VStr "nightly-booking") Samples.world
              Hselect eq_refl Hoption eq_refl)
    as (configs & sel & Hconfigs & _ & _ & _ & _ & Hsel & _ & w' & Hrun & _ & Hunit).
  injection Hconfigs as <-.
  assert (Hnightly : selected_config Samples.listingTypes (VStr "nightly-booking")
                     = Some Samples.nightly) by reflexivity.
  split; [exact Hnightly|].
  rewrite Hnightly in Hsel. injection Hsel as <-.
  exists w'. split; [exact Hrun|exact Hunit].
Defined.

(** What running a function does in the sample of the submit path: the
    library's [handleSubmit] passes the form values to the submit handler. *)
Definition sample_invoke (f : extfn) : list submit_event :=
  if bool_decide (f = SubmitSamples.library_handleSubmit)
  then [Submitted SubmitSamples.submit_handler (formValues Samples.world)]
  else [].

(** Submitting the sample form hands its values to the sample handler, even
    though the caller passed a [render] prop of its own. *)
Lemma form_onSubmit_is_handleSubmit_sample :
  get_prop "onSubmit" SubmitSamples.component_props
  = Some (PFn SubmitSamples.submit_handler)
  ∧ supplies_handleSubmit sample_invoke
      (EditListingDetailsFormComponent [] SubmitSamples.component_props)
      SubmitSamples.render_props
  ∧ submit sample_invoke
      (render Samples.css Samples.classNames Samples.EXTENDED_DATA_SCHEMA_TYPES
         SubmitSamples.render_props)
    = [Submitted SubmitSamples.submit_handler (formValues Samples.world)].
Proof.
  assert (Hlibrary :
    supplies_handleSubmit sample_invoke
      (EditListingDetailsFormComponent [] SubmitSamples.component_props)
      SubmitSamples.render_props).
  { intros onSubmit HonSubmit. cbn in HonSubmit. injection HonSubmit as <-.
    reflexivity. }
  split; [reflexivity|]. split; [exact Hlibrary|].
  destruct (form_onSubmit_is_handleSubmit Samples.css Samples.classNames
              Samples.EXTENDED_DATA_SCHEMA_TYPES [] sample_invoke
              SubmitSamples.component_props SubmitSamples.render_props
              SubmitSamples.submit_handler eq_refl Hlibrary)
    as (tree & Hrendered & _ & _ & Hsubmit & _).
  rewrite rendered_by_component in Hrendered. injection Hrendered as <-.
  exact Hsubmit.
Defined.

(** A callback that throws: the handler throws as well, and the form already
    holds the alias and the unit type of product selling. *)
Example handleOnChange_with_throwing_callback :
  handleOnChange_with (fun _ _ => throw (CannotRead VNull "setState"))
    (Def Samples.listingTypes) (Def Samples.onProcessChange)
    (VStr "product-selling") Samples.world
  = (Thrown (CannotRead VNull "setState"),
     {| formValues :=
          <["unitType" := VStr "item"]>
            (<["transactionProcessAlias" := VStr "default-purchase/release-1"]>
               (formValues Samples.world));
        calls :=
          [(Samples.onProcessChange, [VStr "default-purchase/release-1"])] |}).
Proof. reflexivity. Qed.

(** The same selection of an unknown value throws before anything changes,
    whatever the callback does. *)
Example handleOnChange_with_unknown_value :
  handleOnChange_with (fun _ _ => throw (CannotRead VNull "setState"))
    (Def Samples.listingTypes) (Def Samples.onProcessChange)
    (VStr "rental") Samples.world
  = (Thrown (CannotRead VUndefined "transactionProcessAlias"), Samples.world).
Proof. reflexivity. Qed.
